(** * NVENC shared encoder settings (source/ui/nvenc_shared.cpp)

    A shallow embedding of the option translator [update], the visibility
    callback [modified_ratecontrol] and the resource derivation
    [override_update], with the properties of the module's specification
    stated and proved over it. *)

From Stdlib Require Import ZArith Lia Floats.SpecFloat.
From stdpp Require Import base gmap strings.

Local Open Scope string_scope.
Local Open Scope Z_scope.

(** ** Machine integers *)

Module Int.

Definition INT_MIN : Z := - 2 ^ 31.
Definition INT_MAX : Z := 2 ^ 31 - 1.
Definition INT64_MIN : Z := - 2 ^ 63.
Definition INT64_MAX : Z := 2 ^ 63 - 1.

(** Values an [int] can hold. *)
Definition int_range (z : Z) : Prop := INT_MIN <= z <= INT_MAX.

(** Values an [int64_t] can hold. *)
Definition int64_range (z : Z) : Prop := INT64_MIN <= z <= INT64_MAX.

(** [static_cast<int>(z)] of a 64-bit value: the low 32 bits, read as a
    two's-complement number. *)
Definition static_cast_int (z : Z) : Z := (z + 2 ^ 31) mod 2 ^ 32 - 2 ^ 31.

(** The result of 64-bit signed arithmetic, reduced to 64 bits. *)
Definition wrap64 (z : Z) : Z := (z + 2 ^ 63) mod 2 ^ 64 - 2 ^ 63.

Definition add64 (a b : Z) : Z := wrap64 (a + b).
Definition sub64 (a b : Z) : Z := wrap64 (a - b).
Definition mul64 (a b : Z) : Z := wrap64 (a * b).

End Int.

Export Int.

Infix "+ll" := add64 (at level 50, left associativity) : Z_scope.
Infix "-ll" := sub64 (at level 50, left associativity) : Z_scope.
Infix "*ll" := mul64 (at level 40, left associativity) : Z_scope.

(** ** IEEE-754 binary64 values ([double]) *)

Module Double.

Definition prec : Z := 53.
Definition emax : Z := 1024.

(** The [double] nearest to [m] times 2 to the power [e]. *)
Definition scaled (m e : Z) : spec_float := binary_normalize prec emax m e false.

(** The [double] nearest to the integer [z]. *)
Definition of_Z (z : Z) : spec_float := scaled z 0.

Definition div : spec_float -> spec_float -> spec_float := SFdiv prec emax.
Definition mul : spec_float -> spec_float -> spec_float := SFmul prec emax.

(** [a > b] on doubles; false when either side is a NaN. *)
Definition gt (a b : spec_float) : bool := SFltb b a.

End Double.

(** ** The codec context and its option dictionary *)

(** A value held by an AVOption: an integer, a double, or a string (which
    [av_opt_set] may reset with a null pointer). *)
Inductive av_option : Type :=
| AVInt (v : Z)
| AVDouble (v : spec_float)
| AVString (v : option string).

(** The fields of [AVCodecContext] that this module touches, with the private
    options of the encoder ([priv_data]) as a dictionary keyed by option
    name. *)
Record AVCodecContext : Type := {
  priv_data : gmap string av_option;
  bit_rate : Z;
  rc_max_rate : Z;
  rc_buffer_size : Z;
  qmin : Z;
  qmax : Z;
  max_b_frames : Z;
  delay : Z
}.

Definition set_priv_data (f : gmap string av_option -> gmap string av_option)
    (c : AVCodecContext) : AVCodecContext :=
  {| priv_data := f (priv_data c); bit_rate := bit_rate c;
     rc_max_rate := rc_max_rate c; rc_buffer_size := rc_buffer_size c;
     qmin := qmin c; qmax := qmax c; max_b_frames := max_b_frames c;
     delay := delay c |}.

Definition set_bit_rate (v : Z) (c : AVCodecContext) : AVCodecContext :=
  {| priv_data := priv_data c; bit_rate := v;
     rc_max_rate := rc_max_rate c; rc_buffer_size := rc_buffer_size c;
     qmin := qmin c; qmax := qmax c; max_b_frames := max_b_frames c;
     delay := delay c |}.

Definition set_rc_max_rate (v : Z) (c : AVCodecContext) : AVCodecContext :=
  {| priv_data := priv_data c; bit_rate := bit_rate c;
     rc_max_rate := v; rc_buffer_size := rc_buffer_size c;
     qmin := qmin c; qmax := qmax c; max_b_frames := max_b_frames c;
     delay := delay c |}.

Definition set_rc_buffer_size (v : Z) (c : AVCodecContext) : AVCodecContext :=
  {| priv_data := priv_data c; bit_rate := bit_rate c;
     rc_max_rate := rc_max_rate c; rc_buffer_size := v;
     qmin := qmin c; qmax := qmax c; max_b_frames := max_b_frames c;
     delay := delay c |}.

Definition set_qmin (v : Z) (c : AVCodecContext) : AVCodecContext :=
  {| priv_data := priv_data c; bit_rate := bit_rate c;
     rc_max_rate := rc_max_rate c; rc_buffer_size := rc_buffer_size c;
     qmin := v; qmax := qmax c; max_b_frames := max_b_frames c;
     delay := delay c |}.

Definition set_qmax (v : Z) (c : AVCodecContext) : AVCodecContext :=
  {| priv_data := priv_data c; bit_rate := bit_rate c;
     rc_max_rate := rc_max_rate c; rc_buffer_size := rc_buffer_size c;
     qmin := qmin c; qmax := v; max_b_frames := max_b_frames c;
     delay := delay c |}.

Definition set_max_b_frames (v : Z) (c : AVCodecContext) : AVCodecContext :=
  {| priv_data := priv_data c; bit_rate := bit_rate c;
     rc_max_rate := rc_max_rate c; rc_buffer_size := rc_buffer_size c;
     qmin := qmin c; qmax := qmax c; max_b_frames := v;
     delay := delay c |}.

Definition set_delay (v : Z) (c : AVCodecContext) : AVCodecContext :=
  {| priv_data := priv_data c; bit_rate := bit_rate c;
     rc_max_rate := rc_max_rate c; rc_buffer_size := rc_buffer_size c;
     qmin := qmin c; qmax := qmax c; max_b_frames := max_b_frames c;
     delay := v |}.

(** [av_opt_set(context->priv_data, name, value, 0)]; [None] is the null
    pointer. *)
Definition av_opt_set (name : string) (value : option string)
    (c : AVCodecContext) : AVCodecContext :=
  set_priv_data <[name := AVString value]> c.

(** [av_opt_set_int(obj, name, value, flags)]. *)
Definition av_opt_set_int (name : string) (value : Z)
    (c : AVCodecContext) : AVCodecContext :=
  set_priv_data <[name := AVInt value]> c.

(** [av_opt_set_double(obj, name, value, flags)]. *)
Definition av_opt_set_double (name : string) (value : spec_float)
    (c : AVCodecContext) : AVCodecContext :=
  set_priv_data <[name := AVDouble value]> c.

(** [av_opt_get_int(context, name, AV_OPT_SEARCH_CHILDREN, &out)]: the
    integer held by the option, or [out] as the caller initialised it when
    the option is absent or holds no integer. *)
Definition av_opt_get_int (c : AVCodecContext) (name : string) (out : Z) : Z :=
  match priv_data c !! name with
  | Some (AVInt v) => v
  | _ => out
  end.

(** [if (c) stmt;] on a threaded state. *)
Definition when {S : Type} (c : bool) (stmt : S -> S) (s : S) : S :=
  if c then stmt s else s.

(** ** Resource derivation *)

(** [obsffmpeg::nvenc::override_update]. *)
Definition override_update (context : AVCodecContext) : AVCodecContext :=
  let rclookahead := av_opt_get_int context "rc-lookahead" 0 in
  let surfaces := av_opt_get_int context "surfaces" 0 in
  let async_depth := av_opt_get_int context "async_depth" 0 in
  let '(surfaces, context) :=
    if surfaces =? 0 then
      let surfaces := Z.max 4 ((max_b_frames context +ll 1) *ll 4) in
      let surfaces :=
        if 0 <? rclookahead then
          Z.max 1 (Z.max surfaces (rclookahead +ll (max_b_frames context +ll 5)))
        else if 0 <? max_b_frames context then
          Z.max 4 ((max_b_frames context +ll 1) *ll 4)
        else
          4 in
      (surfaces, av_opt_set_int "surfaces" surfaces context)
    else (surfaces, context) in
  set_delay (static_cast_int (Z.min (Z.max async_depth 3) (surfaces -ll 1))) context.

(** ** The settings store *)

(** An [obs_data_t] settings object keeps, for every item, the value the
    user has set and a default, apart from each other: a getter reads the
    user's value and, where there is none, the default.  A map below is one
    layer of the object.  The getters and [obs_data_set_int] work on the
    items as a reader finds them, the user's values laid over the defaults
    ([obs_data_items]); [obs_data_set_default_int] works on the defaults. *)

(** An item of an [obs_data_t] settings object: a number (integer or
    double) or a boolean. *)
Inductive obs_data_item : Type :=
| ObsInt (v : Z)
| ObsDouble (v : spec_float)
| ObsBool (v : bool).

(** [(long long) d] for a double [d]: truncation toward zero. *)
Definition double_to_int64 (d : spec_float) : Z :=
  match d with
  | S754_finite s m e =>
      let a := if 0 <=? e then Z.pos m * 2 ^ e else Z.pos m / 2 ^ (- e) in
      wrap64 (if s then - a else a)
  | _ => 0
  end.

(** [obs_data_get_int(settings, name)]: 0 when the item is absent or is no
    number. *)
Definition obs_data_get_int (settings : gmap string obs_data_item)
    (name : string) : Z :=
  match settings !! name with
  | Some (ObsInt v) => v
  | Some (ObsDouble d) => double_to_int64 d
  | _ => 0
  end.

(** [obs_data_get_double(settings, name)]. *)
Definition obs_data_get_double (settings : gmap string obs_data_item)
    (name : string) : spec_float :=
  match settings !! name with
  | Some (ObsInt v) => Double.of_Z v
  | Some (ObsDouble d) => d
  | _ => S754_zero false
  end.

(** [obs_data_get_bool(settings, name)]. *)
Definition obs_data_get_bool (settings : gmap string obs_data_item)
    (name : string) : bool :=
  match settings !! name with
  | Some (ObsBool b) => b
  | _ => false
  end.

(** [obs_data_set_int(settings, name, val)]. *)
Definition obs_data_set_int (name : string) (val : Z)
    (settings : gmap string obs_data_item) : gmap string obs_data_item :=
  <[name := ObsInt val]> settings.

(** [obs_data_set_default_int(settings, name, val)], on the defaults of
    the settings object: the default of the item becomes [val], whatever
    default it had before.  The user's values are not touched. *)
Definition obs_data_set_default_int (name : string) (val : Z)
    (defaults : gmap string obs_data_item) : gmap string obs_data_item :=
  <[name := ObsInt val]> defaults.

(** The items of a settings object as a reader finds them: the user's
    value where there is one, the default otherwise. *)
Definition obs_data_items (user defaults : gmap string obs_data_item)
    : gmap string obs_data_item :=
  user ∪ defaults.

(** ** Setting keys *)

Definition ST_PRESET := "NVENC.Preset".

Definition ST_RATECONTROL := "NVENC.RateControl".
Definition ST_RATECONTROL_MODE := ST_RATECONTROL +:+ ".Mode".
Definition ST_RATECONTROL_TWOPASS := ST_RATECONTROL +:+ ".TwoPass".
Definition ST_RATECONTROL_LOOKAHEAD := ST_RATECONTROL +:+ ".LookAhead".
Definition ST_RATECONTROL_ADAPTIVEI := ST_RATECONTROL +:+ ".AdaptiveI".
Definition ST_RATECONTROL_ADAPTIVEB := ST_RATECONTROL +:+ ".AdaptiveB".

Definition ST_RATECONTROL_BITRATE := ST_RATECONTROL +:+ ".Bitrate".
Definition ST_RATECONTROL_BITRATE_TARGET := ST_RATECONTROL_BITRATE +:+ ".Target".
Definition ST_RATECONTROL_BITRATE_MAXIMUM := ST_RATECONTROL_BITRATE +:+ ".Maximum".

Definition ST_RATECONTROL_QUALITY := ST_RATECONTROL +:+ ".Quality".
Definition ST_RATECONTROL_QUALITY_MINIMUM := ST_RATECONTROL_QUALITY +:+ ".Minimum".
Definition ST_RATECONTROL_QUALITY_MAXIMUM := ST_RATECONTROL_QUALITY +:+ ".Maximum".
Definition ST_RATECONTROL_QUALITY_TARGET := ST_RATECONTROL_QUALITY +:+ ".Target".

Definition ST_RATECONTROL_QP := ST_RATECONTROL +:+ ".QP".
Definition ST_RATECONTROL_QP_I := ST_RATECONTROL_QP +:+ ".I".
Definition ST_RATECONTROL_QP_I_INITIAL := ST_RATECONTROL_QP_I +:+ ".Initial".
Definition ST_RATECONTROL_QP_P := ST_RATECONTROL_QP +:+ ".P".
Definition ST_RATECONTROL_QP_P_INITIAL := ST_RATECONTROL_QP_P +:+ ".Initial".
Definition ST_RATECONTROL_QP_B := ST_RATECONTROL_QP +:+ ".B".
Definition ST_RATECONTROL_QP_B_INITIAL := ST_RATECONTROL_QP_B +:+ ".Initial".

Definition ST_AQ := "NVENC.AQ".
Definition ST_AQ_SPATIAL := ST_AQ +:+ ".Spatial".
Definition ST_AQ_TEMPORAL := ST_AQ +:+ ".Temporal".
Definition ST_AQ_STRENGTH := ST_AQ +:+ ".Strength".

Definition ST_OTHER := "NVENC.Other".
Definition ST_OTHER_BFRAMES := ST_OTHER +:+ ".BFrames".
Definition ST_OTHER_BFRAME_REFERENCEMODE := ST_OTHER +:+ ".BFrameReferenceMode".
Definition ST_OTHER_ZEROLATENCY := ST_OTHER +:+ ".ZeroLatency".
Definition ST_OTHER_WEIGHTED_PREDICTION := ST_OTHER +:+ ".WeightedPrediction".
Definition ST_OTHER_NONREFERENCE_PFRAMES := ST_OTHER +:+ ".NonReferencePFrames".

(** ** Enumerations and their option tokens *)

(** The enumerators of [preset], [ratecontrolmode] and [b_ref_mode] that the
    tables and the switches of the module name. A setting holds an
    enumerator as its integer value; see [enumerator] below for the cast
    back. *)
Inductive preset : Type :=
| DEFAULT | SLOW | MEDIUM | FAST | HIGH_PERFORMANCE | HIGH_QUALITY
| BLURAYDISC | LOW_LATENCY | LOW_LATENCY_HIGH_PERFORMANCE
| LOW_LATENCY_HIGH_QUALITY | LOSSLESS | LOSSLESS_HIGH_PERFORMANCE.

Inductive ratecontrolmode : Type :=
| CQP | VBR | VBR_HQ | CBR | CBR_HQ | CBR_LD_HQ.

Inductive b_ref_mode : Type :=
| DISABLED | EACH | MIDDLE.

#[global] Instance preset_eq_dec : EqDecision preset.
Proof. solve_decision. Defined.

#[global] Instance ratecontrolmode_eq_dec : EqDecision ratecontrolmode.
Proof. solve_decision. Defined.

#[global] Instance b_ref_mode_eq_dec : EqDecision b_ref_mode.
Proof. solve_decision. Defined.

(** [std::map::find] on a table written as its initialiser list; [None] is
    [end()]. *)
Fixpoint std_map_find {K V : Type} `{EqDecision K} (m : list (K * V)) (k : K)
    : option V :=
  match m with
  | [] => None
  | (k', v) :: m => if decide (k' = k) then Some v else std_map_find m k
  end.

Definition preset_to_opt : list (preset * string) :=
  [ (DEFAULT, "default");
    (SLOW, "slow");
    (MEDIUM, "medium");
    (FAST, "fast");
    (HIGH_PERFORMANCE, "hp");
    (HIGH_QUALITY, "hq");
    (BLURAYDISC, "bd");
    (LOW_LATENCY, "ll");
    (LOW_LATENCY_HIGH_PERFORMANCE, "llhp");
    (LOW_LATENCY_HIGH_QUALITY, "llhq");
    (LOSSLESS, "lossless");
    (LOSSLESS_HIGH_PERFORMANCE, "losslesshp") ].

Definition ratecontrolmode_to_opt : list (ratecontrolmode * string) :=
  [ (CQP, "constqp"); (VBR, "vbr"); (VBR_HQ, "vbr_hq");
    (CBR, "cbr"); (CBR_HQ, "cbr_hq"); (CBR_LD_HQ, "cbr_ld_hq") ].

Definition b_ref_mode_to_opt : list (b_ref_mode * string) :=
  [ (DISABLED, "disabled"); (EACH, "each"); (MIDDLE, "middle") ].

(** ** Declarations of the headers the module includes *)

(** The properties of the rate-control groups that this file names. *)
Definition rate_control_properties : list string :=
  [ ST_RATECONTROL_BITRATE; ST_RATECONTROL_BITRATE_TARGET;
    ST_RATECONTROL_BITRATE_MAXIMUM;
    ST_RATECONTROL_QUALITY; ST_RATECONTROL_QUALITY_MINIMUM;
    ST_RATECONTROL_QUALITY_MAXIMUM; ST_RATECONTROL_QUALITY_TARGET;
    ST_RATECONTROL_QP; ST_RATECONTROL_QP_I; ST_RATECONTROL_QP_P;
    ST_RATECONTROL_QP_B; ST_RATECONTROL_QP_I_INITIAL;
    ST_RATECONTROL_QP_P_INITIAL; ST_RATECONTROL_QP_B_INITIAL ].

(** What the module takes from [nvenc_shared.hpp] and [strings.hpp]: the
    integer value of each enumerator, and the buffer-size key, which is
    neither the replay-buffer key nor one of the names above. *)
Class nvenc_headers : Type := {
  preset_value : preset -> Z;
  ratecontrolmode_value : ratecontrolmode -> Z;
  b_ref_mode_value : b_ref_mode -> Z;
  S_RATECONTROL_BUFFERSIZE : string;
  S_RATECONTROL_BUFFERSIZE_fresh :
    S_RATECONTROL_BUFFERSIZE ∉ "bitrate" :: rate_control_properties
}.

(** [static_cast<E>(v)]: the enumerator among [all] whose value is [v];
    [None] when [v] is the value of none of them, in which case no table
    holds it and no [case] of a switch matches it. *)
Definition enumerator {E : Type} (value : E -> Z) (all : list E) (v : Z) : option E :=
  List.find (fun e => value e =? v) all.

Definition static_cast_preset `{nvenc_headers} : Z -> option preset :=
  enumerator preset_value
    [ DEFAULT; SLOW; MEDIUM; FAST; HIGH_PERFORMANCE; HIGH_QUALITY; BLURAYDISC;
      LOW_LATENCY; LOW_LATENCY_HIGH_PERFORMANCE; LOW_LATENCY_HIGH_QUALITY;
      LOSSLESS; LOSSLESS_HIGH_PERFORMANCE ].

Definition static_cast_ratecontrolmode `{nvenc_headers} : Z -> option ratecontrolmode :=
  enumerator ratecontrolmode_value [ CQP; VBR; VBR_HQ; CBR; CBR_HQ; CBR_LD_HQ ].

Definition static_cast_b_ref_mode `{nvenc_headers} : Z -> option b_ref_mode :=
  enumerator b_ref_mode_value [ DISABLED; EACH; MIDDLE ].

(** Modelled from the spec: [is_tristate_default], declared in
    [utility.hpp]; a tri-state is the integer -1 (Default), 0 (Disabled) or
    1 (Enabled). *)
Definition is_tristate_default (v : Z) : bool := v =? -1.

(** Modelled from the spec: [is_tristate_enabled], declared in
    [utility.hpp]; Enabled is the integer 1. *)
Definition is_tristate_enabled (v : Z) : bool := v =? 1.

(** ** The codec descriptor *)

Record AVCodec : Type := { name : string }.

(** [strcmp(a, b) == 0]. *)
Definition strcmp_eq (a b : string) : bool := bool_decide (a = b).

(** ** Rate-control field groups *)

(** The five local flags [have_bitrate], [have_bitrate_max], [have_quality],
    [have_qp] and [have_qp_init] of [modified_ratecontrol] and [update]. *)
Record have : Type := {
  have_bitrate : bool;
  have_bitrate_max : bool;
  have_quality : bool;
  have_qp : bool;
  have_qp_init : bool
}.

(** All five flags as they are initialised: [false]. *)
Definition have_none : have :=
  {| have_bitrate := false; have_bitrate_max := false; have_quality := false;
     have_qp := false; have_qp_init := false |}.

Definition set_have_bitrate (b : bool) (h : have) : have :=
  {| have_bitrate := b; have_bitrate_max := have_bitrate_max h;
     have_quality := have_quality h; have_qp := have_qp h;
     have_qp_init := have_qp_init h |}.

Definition set_have_bitrate_max (b : bool) (h : have) : have :=
  {| have_bitrate := have_bitrate h; have_bitrate_max := b;
     have_quality := have_quality h; have_qp := have_qp h;
     have_qp_init := have_qp_init h |}.

Definition set_have_quality (b : bool) (h : have) : have :=
  {| have_bitrate := have_bitrate h; have_bitrate_max := have_bitrate_max h;
     have_quality := b; have_qp := have_qp h;
     have_qp_init := have_qp_init h |}.

Definition set_have_qp (b : bool) (h : have) : have :=
  {| have_bitrate := have_bitrate h; have_bitrate_max := have_bitrate_max h;
     have_quality := have_quality h; have_qp := b;
     have_qp_init := have_qp_init h |}.

Definition set_have_qp_init (b : bool) (h : have) : have :=
  {| have_bitrate := have_bitrate h; have_bitrate_max := have_bitrate_max h;
     have_quality := have_quality h; have_qp := have_qp h;
     have_qp_init := b |}.

(** ** The property tree *)

(** The state of a property of the settings dialog that the callbacks
    change. *)
Record obs_property : Type := {
  visible : bool;
  enabled : bool
}.

(** [obs_property_set_visible(obs_properties_get(props, name), b)]: a
    property that is not in the tree is a null pointer, on which the call
    does nothing. *)
Definition obs_property_set_visible (name : string) (b : bool)
    (props : gmap string obs_property) : gmap string obs_property :=
  alter (fun p => {| visible := b; enabled := enabled p |}) name props.

(** [obs_property_set_enabled(obs_properties_get(props, name), b)]. *)
Definition obs_property_set_enabled (name : string) (b : bool)
    (props : gmap string obs_property) : gmap string obs_property :=
  alter (fun p => {| visible := visible p; enabled := b |}) name props.


(** The log sink: the lines [PLOG_WARNING] has written, oldest first. *)
Definition PLOG_WARNING (line : string) (log : list string) : list string :=
  (log ++ [line])%list.

(** What a call of [update] leaves behind: the settings object, the codec
    context and the log. *)
Record updated : Type := {
  settings_after : gmap string obs_data_item;
  context_after : AVCodecContext;
  log_after : list string
}.

(** The private options each block of [update] can write. *)
Definition aq_options : list string :=
  ["spatial-aq"; "temporal-aq"; "spatial_aq"; "temporal_aq"; "aq-strength"].

Definition other_options : list string :=
  ["zerolatency"; "nonref_p"; "weighted_pred"; "b_ref_mode"].

Definition rate_control_options : list string :=
  ["rc"; "cbr"; "2pass"; "rc-lookahead"; "no-scenecut"; "b_adapt"; "cq";
   "init_qpI"; "init_qpP"; "init_qpB"].

Section nvenc.

Context `{nvenc_headers}.

(** [obsffmpeg::nvenc::get_defaults], on the defaults of the settings
    object. *)
Definition get_defaults (settings : gmap string obs_data_item)
    : gmap string obs_data_item :=
  let settings := obs_data_set_default_int ST_PRESET (preset_value DEFAULT) settings in
  let settings :=
    obs_data_set_default_int ST_RATECONTROL_MODE (ratecontrolmode_value CBR_HQ) settings in
  let settings := obs_data_set_default_int ST_RATECONTROL_TWOPASS (-1) settings in
  let settings := obs_data_set_default_int ST_RATECONTROL_LOOKAHEAD 0 settings in
  let settings := obs_data_set_default_int ST_RATECONTROL_ADAPTIVEI (-1) settings in
  let settings := obs_data_set_default_int ST_RATECONTROL_ADAPTIVEB (-1) settings in
  let settings := obs_data_set_default_int ST_RATECONTROL_BITRATE_TARGET 6000 settings in
  let settings := obs_data_set_default_int ST_RATECONTROL_BITRATE_MAXIMUM 6000 settings in
  let settings := obs_data_set_default_int S_RATECONTROL_BUFFERSIZE 12000 settings in
  let settings := obs_data_set_default_int ST_RATECONTROL_QUALITY_MINIMUM 51 settings in
  let settings := obs_data_set_default_int ST_RATECONTROL_QUALITY_MAXIMUM (-1) settings in
  let settings := obs_data_set_default_int ST_RATECONTROL_QUALITY_TARGET 0 settings in
  let settings := obs_data_set_default_int ST_RATECONTROL_QP_I 21 settings in
  let settings := obs_data_set_default_int ST_RATECONTROL_QP_I_INITIAL (-1) settings in
  let settings := obs_data_set_default_int ST_RATECONTROL_QP_P 21 settings in
  let settings := obs_data_set_default_int ST_RATECONTROL_QP_P_INITIAL (-1) settings in
  let settings := obs_data_set_default_int ST_RATECONTROL_QP_B 21 settings in
  let settings := obs_data_set_default_int ST_RATECONTROL_QP_B_INITIAL (-1) settings in
  let settings := obs_data_set_default_int ST_AQ_SPATIAL (-1) settings in
  let settings := obs_data_set_default_int ST_AQ_STRENGTH 8 settings in
  let settings := obs_data_set_default_int ST_AQ_TEMPORAL (-1) settings in
  let settings := obs_data_set_default_int ST_OTHER_BFRAMES 2 settings in
  let settings :=
    obs_data_set_default_int ST_OTHER_BFRAME_REFERENCEMODE (b_ref_mode_value DISABLED)
      settings in
  let settings := obs_data_set_default_int ST_OTHER_ZEROLATENCY (-1) settings in
  let settings := obs_data_set_default_int ST_OTHER_WEIGHTED_PREDICTION (-1) settings in
  let settings := obs_data_set_default_int ST_OTHER_NONREFERENCE_PFRAMES (-1) settings in
  (* Replay Buffer *)
  obs_data_set_default_int "bitrate" 0 settings.

(** The [switch (rc)] of [modified_ratecontrol]. *)
Definition modified_ratecontrol_switch (rc : option ratecontrolmode) : have :=
  match rc with
  | Some CQP => set_have_qp true have_none
  | Some CBR | Some CBR_HQ | Some CBR_LD_HQ => set_have_bitrate true have_none
  | Some VBR | Some VBR_HQ =>
      set_have_qp_init true
        (set_have_quality true
           (set_have_bitrate_max true (set_have_bitrate true have_none)))
  | None => have_none
  end.

(** [modified_ratecontrol]: the callback run when the rate-control mode
    changes; the result is the property tree and the returned flag. *)
Definition modified_ratecontrol (props : gmap string obs_property)
    (settings : gmap string obs_data_item) : gmap string obs_property * bool :=
  let rc := static_cast_ratecontrolmode (obs_data_get_int settings ST_RATECONTROL_MODE) in
  let h := modified_ratecontrol_switch rc in
  let props := obs_property_set_visible ST_RATECONTROL_BITRATE (have_bitrate h || have_bitrate_max h) props in
  let props := obs_property_set_visible ST_RATECONTROL_BITRATE_TARGET (have_bitrate h) props in
  let props := obs_property_set_visible ST_RATECONTROL_BITRATE_MAXIMUM (have_bitrate_max h) props in
  let props := obs_property_set_visible S_RATECONTROL_BUFFERSIZE (have_bitrate h || have_bitrate_max h) props in
  let props := obs_property_set_visible ST_RATECONTROL_QUALITY (have_quality h) props in
  let props := obs_property_set_visible ST_RATECONTROL_QUALITY_MINIMUM (have_quality h) props in
  let props := obs_property_set_visible ST_RATECONTROL_QUALITY_MAXIMUM (have_quality h) props in
  let props := obs_property_set_visible ST_RATECONTROL_QUALITY_TARGET (have_quality h) props in
  let props := obs_property_set_visible ST_RATECONTROL_QP (have_qp h || have_qp_init h) props in
  let props := obs_property_set_visible ST_RATECONTROL_QP_I (have_qp h) props in
  let props := obs_property_set_visible ST_RATECONTROL_QP_P (have_qp h) props in
  let props := obs_property_set_visible ST_RATECONTROL_QP_B (have_qp h) props in
  let props := obs_property_set_visible ST_RATECONTROL_QP_I_INITIAL (have_qp_init h) props in
  let props := obs_property_set_visible ST_RATECONTROL_QP_P_INITIAL (have_qp_init h) props in
  let props := obs_property_set_visible ST_RATECONTROL_QP_B_INITIAL (have_qp_init h) props in
  (props, true).

(** [modified_quality]. *)
Definition modified_quality (props : gmap string obs_property)
    (settings : gmap string obs_data_item) : gmap string obs_property * bool :=
  let enabled := obs_data_get_bool settings ST_RATECONTROL_QUALITY in
  let props := obs_property_set_enabled ST_RATECONTROL_QUALITY_MINIMUM enabled props in
  let props := obs_property_set_enabled ST_RATECONTROL_QUALITY_MAXIMUM enabled props in
  (props, true).

(** [modified_aq]. *)
Definition modified_aq (props : gmap string obs_property)
    (settings : gmap string obs_data_item) : gmap string obs_property * bool :=
  let spatial_aq := obs_data_get_int settings ST_AQ_SPATIAL =? 1 in
  let props := obs_property_set_visible ST_AQ_STRENGTH spatial_aq props in
  (props, true).

(** The [switch (rc)] of [update]: the flags, and the ["cbr"] option set
    for the constant-bitrate modes. *)
Definition update_switch (rc : option ratecontrolmode)
    (context : AVCodecContext) : have * AVCodecContext :=
  match rc with
  | Some CQP => (set_have_qp true have_none, context)
  | Some CBR | Some CBR_HQ | Some CBR_LD_HQ =>
      (set_have_bitrate true have_none, av_opt_set_int "cbr" 1 context)
  | Some VBR | Some VBR_HQ =>
      (set_have_qp_init true
         (set_have_quality true
            (set_have_bitrate true (set_have_bitrate_max true have_none))),
       context)
  | None => (have_none, context)
  end.

(** The first block of [update]: the preset. *)
Definition update_preset (settings : gmap string obs_data_item)
    (context : AVCodecContext) : AVCodecContext :=
  let c_preset := static_cast_preset (obs_data_get_int settings ST_PRESET) in
  let found := c_preset ≫= std_map_find preset_to_opt in
  match found with
  | Some opt => av_opt_set "preset" (Some opt) context
  | None => av_opt_set "preset" None context
  end.

(** The block [// Rate Control] of [update]. It writes the replay-buffer
    key of the settings, so it returns the settings with the context. *)
Definition update_rate_control (settings : gmap string obs_data_item)
    (codec : AVCodec) (context : AVCodecContext)
    : gmap string obs_data_item * AVCodecContext :=
  let rc := static_cast_ratecontrolmode (obs_data_get_int settings ST_RATECONTROL_MODE) in
  let rcopt := rc ≫= std_map_find ratecontrolmode_to_opt in
  let context :=
    match rcopt with
    | Some opt => av_opt_set "rc" (Some opt) context
    | None => context
    end in
  let context := av_opt_set_int "cbr" 0 context in
  let '(h, context) := update_switch rc context in
  let tp := static_cast_int (obs_data_get_int settings ST_RATECONTROL_TWOPASS) in
  let context :=
    when (0 <=? tp) (av_opt_set_int "2pass" (if tp =? 0 then 0 else 1)) context in
  let la := static_cast_int (obs_data_get_int settings ST_RATECONTROL_LOOKAHEAD) in
  let context := av_opt_set_int "rc-lookahead" la context in
  let context :=
    when (0 <? la) (fun context =>
      let adapt_i := obs_data_get_int settings ST_RATECONTROL_ADAPTIVEI in
      let context :=
        when (negb (is_tristate_default adapt_i))
          (av_opt_set_int "no-scenecut" adapt_i) context in
      when (negb (strcmp_eq (name codec) "h264_nvenc")) (fun context =>
        let adapt_b := obs_data_get_int settings ST_RATECONTROL_ADAPTIVEB in
        when (negb (is_tristate_default adapt_b))
          (av_opt_set_int "b_adapt" adapt_b) context) context) context in
  let context :=
    when (have_bitrate h)
      (set_bit_rate
         (static_cast_int
            (obs_data_get_int settings ST_RATECONTROL_BITRATE_TARGET *ll 1000)))
      context in
  (* Support for Replay Buffer *)
  let settings :=
    when (have_bitrate h)
      (obs_data_set_int "bitrate"
         (obs_data_get_int settings ST_RATECONTROL_BITRATE_TARGET))
      settings in
  let context :=
    when (have_bitrate_max h)
      (set_rc_max_rate
         (static_cast_int
            (obs_data_get_int settings ST_RATECONTROL_BITRATE_MAXIMUM *ll 1000)))
      context in
  let context :=
    when (have_bitrate h || have_bitrate_max h)
      (set_rc_buffer_size
         (static_cast_int
            (obs_data_get_int settings S_RATECONTROL_BUFFERSIZE *ll 1000)))
      context in
  let context :=
    when (have_quality h && obs_data_get_bool settings ST_RATECONTROL_QUALITY)
      (fun context =>
         let qmin :=
           static_cast_int (obs_data_get_int settings ST_RATECONTROL_QUALITY_MINIMUM) in
         let context := set_qmin qmin context in
         when (0 <=? qmin)
           (set_qmax
              (static_cast_int
                 (obs_data_get_int settings ST_RATECONTROL_QUALITY_MAXIMUM)))
           context) context in
  let context :=
    let v :=
      Double.mul
        (Double.div (obs_data_get_double settings ST_RATECONTROL_QUALITY_TARGET)
           (Double.of_Z 100))
        (Double.of_Z 51) in
    when (Double.gt v (Double.of_Z 0)) (av_opt_set_double "cq" v) context in
  let context :=
    when (have_qp h) (fun context =>
      let context :=
        av_opt_set_int "init_qpI"
          (static_cast_int (obs_data_get_int settings ST_RATECONTROL_QP_I)) context in
      let context :=
        av_opt_set_int "init_qpP"
          (static_cast_int (obs_data_get_int settings ST_RATECONTROL_QP_P)) context in
      av_opt_set_int "init_qpB"
        (static_cast_int (obs_data_get_int settings ST_RATECONTROL_QP_B)) context)
      context in
  let context :=
    when (have_qp_init h) (fun context =>
      let context :=
        av_opt_set_int "init_qpI"
          (obs_data_get_int settings ST_RATECONTROL_QP_I_INITIAL) context in
      let context :=
        av_opt_set_int "init_qpP"
          (obs_data_get_int settings ST_RATECONTROL_QP_P_INITIAL) context in
      av_opt_set_int "init_qpB"
        (obs_data_get_int settings ST_RATECONTROL_QP_B_INITIAL) context)
      context in
  (settings, context).

(** The block [// AQ] of [update]. *)
Definition update_aq (settings : gmap string obs_data_item)
    (codec : AVCodec) (context : AVCodecContext) : AVCodecContext :=
  let saq := obs_data_get_int settings ST_AQ_SPATIAL in
  let taq := obs_data_get_int settings ST_AQ_TEMPORAL in
  let context :=
    if strcmp_eq (name codec) "h264_nvenc" then
      let context :=
        when (negb (is_tristate_default saq)) (av_opt_set_int "spatial-aq" saq) context in
      when (negb (is_tristate_default taq)) (av_opt_set_int "temporal-aq" taq) context
    else
      let context :=
        when (negb (is_tristate_default saq)) (av_opt_set_int "spatial_aq" saq) context in
      when (negb (is_tristate_default taq)) (av_opt_set_int "temporal_aq" taq) context in
  when (is_tristate_enabled saq)
    (av_opt_set_int "aq-strength"
       (static_cast_int (obs_data_get_int settings ST_AQ_STRENGTH))) context.

(** The block [// Other] of [update]; the warning goes to the log. *)
Definition update_other (settings : gmap string obs_data_item)
    (codec : AVCodec) (context : AVCodecContext) (log : list string)
    : AVCodecContext * list string :=
  let zl := obs_data_get_int settings ST_OTHER_ZEROLATENCY in
  let wp := obs_data_get_int settings ST_OTHER_WEIGHTED_PREDICTION in
  let nrp := obs_data_get_int settings ST_OTHER_NONREFERENCE_PFRAMES in
  let context :=
    set_max_b_frames
      (static_cast_int (obs_data_get_int settings ST_OTHER_BFRAMES)) context in
  let context :=
    when (negb (is_tristate_default zl)) (av_opt_set_int "zerolatency" zl) context in
  let context :=
    when (negb (is_tristate_default nrp)) (av_opt_set_int "nonref_p" nrp) context in
  let '(context, log) :=
    if negb (max_b_frames context =? 0) && is_tristate_enabled wp then
      (av_opt_set_int "weighted_pred" 0 context,
       PLOG_WARNING
         ("[" +:+ name codec
            +:+ "] Weighted Prediction disabled because of B-Frames being used.")
         log)
    else
      (when (negb (is_tristate_default wp)) (av_opt_set_int "weighted_pred" wp) context,
       log) in
  let found :=
    static_cast_b_ref_mode (obs_data_get_int settings ST_OTHER_BFRAME_REFERENCEMODE)
      ≫= std_map_find b_ref_mode_to_opt in
  let context :=
    match found with
    | Some opt => av_opt_set "b_ref_mode" (Some opt) context
    | None => context
    end in
  (context, log).

(** [obsffmpeg::nvenc::update]: the settings object, the codec context and
    the log as the call leaves them. *)
Definition update (settings : gmap string obs_data_item) (codec : AVCodec)
    (context : AVCodecContext) (log : list string) : updated :=
  let context := update_preset settings context in
  let '(settings, context) := update_rate_control settings codec context in
  let context := update_aq settings codec context in
  let '(context, log) := update_other settings codec context log in
  {| settings_after := settings; context_after := context; log_after := log |}.

End nvenc.

(** ** Concrete inputs *)

(** The position of an enumerator in the list of its enumeration. *)
Fixpoint position {E : Type} `{EqDecision E} (all : list E) (e : E) : Z :=
  match all with
  | [] => 0
  | e' :: all => if decide (e' = e) then 0 else 1 + position all e
  end.

(** Modelled from the spec: the declarations of [nvenc_shared.hpp] and
    [strings.hpp], which are not among the sources. The enumerators are
    numbered from zero in the order in which the data model lists them, and
    the buffer-size key is a name outside the groups of this file. *)
#[global] Program Instance declared : nvenc_headers := {|
  preset_value :=
    position
      [ DEFAULT; SLOW; MEDIUM; FAST; HIGH_PERFORMANCE; HIGH_QUALITY; BLURAYDISC;
        LOW_LATENCY; LOW_LATENCY_HIGH_PERFORMANCE; LOW_LATENCY_HIGH_QUALITY;
        LOSSLESS; LOSSLESS_HIGH_PERFORMANCE ];
  ratecontrolmode_value := position [ CQP; VBR; VBR_HQ; CBR; CBR_HQ; CBR_LD_HQ ];
  b_ref_mode_value := position [ DISABLED; EACH; MIDDLE ];
  S_RATECONTROL_BUFFERSIZE := "RateControl.BufferSize"
|}.
Next Obligation.
  apply (bool_decide_unpack _). vm_compute. exact I.
Qed.

(** The codec descriptors of the two encoders. *)
Definition h264_nvenc : AVCodec := {| name := "h264_nvenc" |}.
Definition hevc_nvenc : AVCodec := {| name := "hevc_nvenc" |}.

(** The settings as a reader finds them once [get_defaults] has run on a
    fresh settings object: no value set by the user, every default of
    [get_defaults]. *)
Definition default_settings : gmap string obs_data_item := get_defaults ∅.

(** A property tree that holds every rate-control property, visible and
    enabled. *)
Definition rate_control_tree : gmap string obs_property :=
  list_to_map
    ((fun name => (name, {| visible := true; enabled := true |}))
       <$> S_RATECONTROL_BUFFERSIZE :: rate_control_properties).

(** A codec context as [avcodec_alloc_context3] leaves it for this module:
    no private option set, every field zero. *)
Definition avcodec_alloc_context3 : AVCodecContext :=
  {| priv_data := ∅; bit_rate := 0; rc_max_rate := 0; rc_buffer_size := 0;
     qmin := 0; qmax := 0; max_b_frames := 0; delay := 0 |}.

(** The options and the field that [override_update] reads hold values of
    type [int], and so does the upper bound of the delay. *)
Definition reads_int (context : AVCodecContext) : Prop :=
  int_range (av_opt_get_int context "rc-lookahead" 0) /\
  int_range (av_opt_get_int context "async_depth" 0) /\
  int_range (av_opt_get_int context "surfaces" 0 - 1) /\
  int_range (max_b_frames context).

(** ** Runtime properties *)

(** [obsffmpeg::nvenc::get_runtime_properties]: once the encoder runs, only
    the bitrate properties stay enabled. *)
Definition get_runtime_properties `{nvenc_headers}
    (props : gmap string obs_property) : gmap string obs_property :=
  let props := obs_property_set_enabled ST_PRESET false props in
  let props := obs_property_set_enabled ST_RATECONTROL false props in
  let props := obs_property_set_enabled ST_RATECONTROL_MODE false props in
  let props := obs_property_set_enabled ST_RATECONTROL_TWOPASS false props in
  let props := obs_property_set_enabled ST_RATECONTROL_LOOKAHEAD false props in
  let props := obs_property_set_enabled ST_RATECONTROL_ADAPTIVEI false props in
  let props := obs_property_set_enabled ST_RATECONTROL_ADAPTIVEB false props in
  let props := obs_property_set_enabled ST_RATECONTROL_BITRATE true props in
  let props := obs_property_set_enabled ST_RATECONTROL_BITRATE_TARGET true props in
  let props := obs_property_set_enabled ST_RATECONTROL_BITRATE_MAXIMUM true props in
  let props := obs_property_set_enabled S_RATECONTROL_BUFFERSIZE true props in
  let props := obs_property_set_enabled ST_RATECONTROL_QUALITY false props in
  let props := obs_property_set_enabled ST_RATECONTROL_QUALITY_MINIMUM false props in
  let props := obs_property_set_enabled ST_RATECONTROL_QUALITY_MAXIMUM false props in
  let props := obs_property_set_enabled ST_RATECONTROL_QUALITY_TARGET false props in
  let props := obs_property_set_enabled ST_RATECONTROL_QP false props in
  let props := obs_property_set_enabled ST_RATECONTROL_QP_I false props in
  let props := obs_property_set_enabled ST_RATECONTROL_QP_I_INITIAL false props in
  let props := obs_property_set_enabled ST_RATECONTROL_QP_P false props in
  let props := obs_property_set_enabled ST_RATECONTROL_QP_P_INITIAL false props in
  let props := obs_property_set_enabled ST_RATECONTROL_QP_B false props in
  let props := obs_property_set_enabled ST_RATECONTROL_QP_B_INITIAL false props in
  let props := obs_property_set_enabled ST_AQ false props in
  let props := obs_property_set_enabled ST_AQ_SPATIAL false props in
  let props := obs_property_set_enabled ST_AQ_STRENGTH false props in
  let props := obs_property_set_enabled ST_AQ_TEMPORAL false props in
  let props := obs_property_set_enabled ST_OTHER false props in
  let props := obs_property_set_enabled ST_OTHER_BFRAMES false props in
  let props := obs_property_set_enabled ST_OTHER_BFRAME_REFERENCEMODE false props in
  let props := obs_property_set_enabled ST_OTHER_ZEROLATENCY false props in
  let props := obs_property_set_enabled ST_OTHER_WEIGHTED_PREDICTION false props in
  obs_property_set_enabled ST_OTHER_NONREFERENCE_PFRAMES false props.

(** The properties [get_runtime_properties] disables, in the order of its
    calls. *)
Definition runtime_disabled : list string :=
  [ ST_PRESET; ST_RATECONTROL; ST_RATECONTROL_MODE; ST_RATECONTROL_TWOPASS;
    ST_RATECONTROL_LOOKAHEAD; ST_RATECONTROL_ADAPTIVEI; ST_RATECONTROL_ADAPTIVEB;
    ST_RATECONTROL_QUALITY; ST_RATECONTROL_QUALITY_MINIMUM;
    ST_RATECONTROL_QUALITY_MAXIMUM; ST_RATECONTROL_QUALITY_TARGET;
    ST_RATECONTROL_QP; ST_RATECONTROL_QP_I; ST_RATECONTROL_QP_I_INITIAL;
    ST_RATECONTROL_QP_P; ST_RATECONTROL_QP_P_INITIAL; ST_RATECONTROL_QP_B;
    ST_RATECONTROL_QP_B_INITIAL; ST_AQ; ST_AQ_SPATIAL; ST_AQ_STRENGTH;
    ST_AQ_TEMPORAL; ST_OTHER; ST_OTHER_BFRAMES; ST_OTHER_BFRAME_REFERENCEMODE;
    ST_OTHER_ZEROLATENCY; ST_OTHER_WEIGHTED_PREDICTION;
    ST_OTHER_NONREFERENCE_PFRAMES ].

(** ** What a call writes *)

(** A set of writes to a codec context: the private options written, with
    their values, and for each field the value assigned to it, if any. *)
Record writes : Type := {
  w_priv_data : gmap string av_option;
  w_bit_rate : option Z;
  w_rc_max_rate : option Z;
  w_rc_buffer_size : option Z;
  w_qmin : option Z;
  w_qmax : option Z;
  w_max_b_frames : option Z;
  w_delay : option Z
}.

(** The context after the writes [w]: what [w] writes replaces what the
    context held, the rest stays. *)
Definition write (w : writes) (c : AVCodecContext) : AVCodecContext :=
  {| priv_data := w_priv_data w ∪ priv_data c;
     bit_rate := default (bit_rate c) (w_bit_rate w);
     rc_max_rate := default (rc_max_rate c) (w_rc_max_rate w);
     rc_buffer_size := default (rc_buffer_size c) (w_rc_buffer_size w);
     qmin := default (qmin c) (w_qmin w);
     qmax := default (qmax c) (w_qmax w);
     max_b_frames := default (max_b_frames c) (w_max_b_frames w);
     delay := default (delay c) (w_delay w) |}.

(** Of two assignments to a field the later one stands. *)
Definition later {A : Type} (new old : option A) : option A :=
  match new with
  | Some _ => new
  | None => old
  end.

(** The writes [w1] followed by the writes [w2]. *)
Definition followed_by (w1 w2 : writes) : writes :=
  {| w_priv_data := w_priv_data w2 ∪ w_priv_data w1;
     w_bit_rate := later (w_bit_rate w2) (w_bit_rate w1);
     w_rc_max_rate := later (w_rc_max_rate w2) (w_rc_max_rate w1);
     w_rc_buffer_size := later (w_rc_buffer_size w2) (w_rc_buffer_size w1);
     w_qmin := later (w_qmin w2) (w_qmin w1);
     w_qmax := later (w_qmax w2) (w_qmax w1);
     w_max_b_frames := later (w_max_b_frames w2) (w_max_b_frames w1);
     w_delay := later (w_delay w2) (w_delay w1) |}.

(** No write at all. *)
Definition no_writes : writes :=
  {| w_priv_data := ∅; w_bit_rate := None; w_rc_max_rate := None;
     w_rc_buffer_size := None; w_qmin := None; w_qmax := None;
     w_max_b_frames := None; w_delay := None |}.

(** A step on the context that is a fixed set of writes: what it writes
    does not depend on the context it runs on. *)
Definition writer (f : AVCodecContext -> AVCodecContext) : Prop :=
  exists w : writes, forall c : AVCodecContext, f c = write w c.

(** Every private option [update] can write. *)
Definition update_options : list string :=
  "preset" :: rate_control_options ++ aq_options ++ other_options.

(** Two settings objects that hold the same items but for the
    replay-buffer key ["bitrate"]. *)
Definition same_but_bitrate (s s' : gmap string obs_data_item) : Prop :=
  forall k : string, k <> "bitrate" -> s !! k = s' !! k.

(** ** Machine integers: conversions that lose nothing *)

Lemma static_cast_int_id (z : Z) : int_range z -> static_cast_int z = z.
Proof.
  unfold int_range, INT_MIN, INT_MAX, static_cast_int. intros Hz.
  rewrite Z.mod_small; lia.
Qed.

Lemma wrap64_id (z : Z) : int64_range z -> wrap64 z = z.
Proof.
  unfold int64_range, INT64_MIN, INT64_MAX, wrap64. intros Hz.
  rewrite Z.mod_small; lia.
Qed.

Lemma int_range_int64 (z : Z) : int_range z -> int64_range z.
Proof. unfold int_range, int64_range, INT_MIN, INT_MAX, INT64_MIN, INT64_MAX. lia. Qed.

Lemma static_cast_int_range (z : Z) : int_range (static_cast_int z).
Proof.
  unfold int_range, INT_MIN, INT_MAX, static_cast_int.
  pose proof (Z.mod_pos_bound (z + 2 ^ 31) (2 ^ 32)). lia.
Qed.

(** Drops the reductions to 64 and 32 bits whose operand is in range,
    innermost first. *)
Ltac exact_arith :=
  repeat match goal with
    | |- context [?a <? ?b] => destruct (Z.ltb_spec a b)
    end;
  unfold add64, sub64, mul64, int_range, int64_range,
    INT_MIN, INT_MAX, INT64_MIN, INT64_MAX in *;
  repeat match goal with
    | |- context [wrap64 ?z] =>
        lazymatch z with
        | context [wrap64 _] => fail
        | _ => rewrite (wrap64_id z)
                 by (unfold int64_range, INT64_MIN, INT64_MAX; lia)
        end
    end;
  repeat match goal with
    | |- context [static_cast_int ?z] =>
        rewrite (static_cast_int_id z)
          by (unfold int_range, INT_MIN, INT_MAX; lia)
    end.

(** ** Resource derivation *)

Section override_update.

Variable context : AVCodecContext.

Let rclookahead := av_opt_get_int context "rc-lookahead" 0.
Let surfaces := av_opt_get_int context "surfaces" 0.
Let async_depth := av_opt_get_int context "async_depth" 0.
Let b_frames := max_b_frames context.

(** The surface count the call stores when none is set, as the nested
    conditional of the source. *)
Lemma override_update_derives :
  surfaces = 0 -> int_range rclookahead -> int_range b_frames ->
  priv_data (override_update context) !! "surfaces" =
    Some (AVInt
            (if 0 <? rclookahead then
               Z.max 1 (Z.max (Z.max 4 ((b_frames + 1) * 4))
                          (rclookahead + b_frames + 5))
             else if 0 <? b_frames then Z.max 4 ((b_frames + 1) * 4)
             else 4)).
Proof.
  intros Hs Hla Hmbf. unfold override_update.
  fold rclookahead surfaces async_depth b_frames. rewrite Hs. cbn.
  rewrite lookup_insert_eq. do 2 f_equal.
  exact_arith; lia.
Qed.

(** A surface count that is set is left as it is. *)
Lemma override_update_keeps_surfaces :
  surfaces <> 0 -> priv_data (override_update context) = priv_data context.
Proof.
  intros Hs. unfold override_update. fold surfaces.
  apply Z.eqb_neq in Hs. rewrite Hs. reflexivity.
Qed.

(** C1: when the ["surfaces"] option reads back as zero, [override_update]
    stores max(1, max(max(4, (max_b_frames+1)*4), lookahead + max_b_frames + 5))
    when lookahead > 0, max(4, (max_b_frames+1)*4) when lookahead = 0 and
    max_b_frames > 0, and 4 otherwise.  The lookahead is a number of
    frames: it is not negative. *)
Theorem override_update_surfaces :
  surfaces = 0 -> int_range rclookahead -> int_range b_frames ->
  0 <= rclookahead ->
  let stored := priv_data (override_update context) !! "surfaces" in
  (0 < rclookahead ->
   stored = Some (AVInt (Z.max 1 (Z.max (Z.max 4 ((b_frames + 1) * 4))
                                    (rclookahead + b_frames + 5))))) /\
  (rclookahead = 0 -> 0 < b_frames ->
   stored = Some (AVInt (Z.max 4 ((b_frames + 1) * 4)))) /\
  (~ 0 < rclookahead -> ~ (rclookahead = 0 /\ 0 < b_frames) ->
   stored = Some (AVInt 4)).
Proof.
  intros Hs Hla Hmbf Hcount stored. subst stored.
  rewrite (override_update_derives Hs Hla Hmbf).
  repeat split; intros; repeat case_match; try reflexivity; lia.
Qed.


(** C3 (as amended): after [override_update] the delay is at most the
    surface count minus one; it is at least 3 whenever the surface count
    is at least 4, which is the case whenever the call derived it. *)
Theorem override_update_delay_bounds :
  reads_int context ->
  let surfaces' := av_opt_get_int (override_update context) "surfaces" 0 in
  delay (override_update context) <= surfaces' - 1 /\
  (4 <= surfaces' -> 3 <= delay (override_update context)) /\
  (surfaces = 0 -> 4 <= surfaces').
Proof.
  unfold reads_int. fold rclookahead surfaces async_depth b_frames.
  intros (Hla & Ha & Hs & Hmbf).
  unfold av_opt_get_int at 1 2 3.
  destruct (decide (surfaces = 0)) as [Hz|Hnz].
  - rewrite (override_update_derives Hz Hla Hmbf).
    unfold override_update.
    fold rclookahead surfaces async_depth b_frames. rewrite Hz. cbn.
    exact_arith; lia.
  - rewrite (override_update_keeps_surfaces Hnz).
    unfold override_update.
    fold rclookahead surfaces async_depth b_frames.
    apply Z.eqb_neq in Hnz. rewrite Hnz. cbn.
    change (match priv_data context !! "surfaces" with
            | Some (AVInt v) => v
            | _ => 0
            end) with surfaces.
    apply Z.eqb_neq in Hnz.
    exact_arith; lia.
Qed.

End override_update.

(** Discharges range conditions on closed inputs. *)
Ltac closed_range :=
  unfold reads_int, int_range, int64_range; repeat split; vm_compute; discriminate.

(** The examples of the surface derivation: derive(0, 0) = 4,
    derive(0, 2) = 12 and derive(10, 2) = 17. *)
Lemma override_update_surfaces_examples :
  priv_data (override_update avcodec_alloc_context3) !! "surfaces"
    = Some (AVInt 4) /\
  priv_data (override_update (set_max_b_frames 2 avcodec_alloc_context3))
    !! "surfaces" = Some (AVInt 12) /\
  priv_data
    (override_update
       (set_max_b_frames 2 (av_opt_set_int "rc-lookahead" 10 avcodec_alloc_context3)))
    !! "surfaces" = Some (AVInt 17).
Proof.
  split; [|split].
  - refine (proj2 (proj2 (override_update_surfaces avcodec_alloc_context3 _ _ _ _)) _ _).
    + reflexivity.
    + closed_range.
    + closed_range.
    + vm_compute. discriminate.
    + vm_compute. discriminate.
    + intros [_ Hb]. vm_compute in Hb. discriminate.
  - refine (proj1 (proj2 (override_update_surfaces
                            (set_max_b_frames 2 avcodec_alloc_context3) _ _ _ _)) _ _).
    + reflexivity.
    + closed_range.
    + closed_range.
    + vm_compute. discriminate.
    + reflexivity.
    + reflexivity.
  - refine (proj1 (override_update_surfaces
                     (set_max_b_frames 2
                        (av_opt_set_int "rc-lookahead" 10 avcodec_alloc_context3))
                     _ _ _ _) _).
    + reflexivity.
    + closed_range.
    + closed_range.
    + vm_compute. discriminate.
    + reflexivity.
Defined.


(** C3 fails as it is worded: with a surface count of 2 set beforehand the
    delay is 1, below the minimum of 3. *)
Lemma override_update_delay_below_minimum :
  let context := av_opt_set_int "surfaces" 2 avcodec_alloc_context3 in
  reads_int context /\
  delay (override_update context) = 1 /\
  ~ (3 <= delay (override_update context)
     <= av_opt_get_int (override_update context) "surfaces" 0 - 1).
Proof.
  cbv zeta. split; [closed_range|]. split; [vm_compute; reflexivity|].
  intros [Hlow _]. vm_compute in Hlow. apply Hlow. reflexivity.
Qed.

(** The bounds of the delay on a context with ten surfaces set and on one
    whose surface count is derived. *)
Lemma override_update_delay_bounds_examples :
  (let context :=
     av_opt_set_int "surfaces" 10
       (av_opt_set_int "async_depth" 20 avcodec_alloc_context3) in
   delay (override_update context)
     <= av_opt_get_int (override_update context) "surfaces" 0 - 1) /\
  (let context := set_max_b_frames 2 avcodec_alloc_context3 in
   3 <= delay (override_update context)).
Proof.
  split; cbv zeta.
  - refine (proj1 (override_update_delay_bounds _ _)). closed_range.
  - pose proof (override_update_delay_bounds
                  (set_max_b_frames 2 avcodec_alloc_context3)) as Hb.
    destruct Hb as (_ & Hlow & Hderived); [closed_range|].
    apply Hlow, Hderived. reflexivity.
Defined.

(** ** Stepping through the writes of [update] *)

Lemma when_true {S : Type} (f : S -> S) (s : S) : when true f s = f s.
Proof. reflexivity. Qed.

Lemma when_false {S : Type} (f : S -> S) (s : S) : when false f s = s.
Proof. reflexivity. Qed.

(** A conditional write that leaves an option alone in its body leaves it
    alone. *)
Lemma lookup_when (k : string) (c : bool)
    (f : AVCodecContext -> AVCodecContext) (x : AVCodecContext) :
  (forall y, priv_data (f y) !! k = priv_data y !! k) ->
  priv_data (when c f x) !! k = priv_data x !! k.
Proof. intros Hf. destruct c; [apply Hf | reflexivity]. Qed.

(** The same for what a conditional write leaves of any part [p] of the
    context. *)
Lemma when_frame {S A : Type} (p : S -> A) (c : bool) (f : S -> S) (x : S) :
  (forall y, p (f y) = p y) -> p (when c f x) = p x.
Proof. intros Hf. destruct c; [apply Hf | reflexivity]. Qed.

Lemma lookup_if (k : string) (c : bool) (x y : AVCodecContext) :
  priv_data (if c then x else y) !! k
  = if c then priv_data x !! k else priv_data y !! k.
Proof. destruct c; reflexivity. Qed.

Lemma lookup_match_set (k k' : string) (o : option string) (x : AVCodecContext) :
  k' <> k ->
  priv_data (match o with
             | Some opt => av_opt_set k' (Some opt) x
             | None => x
             end) !! k = priv_data x !! k.
Proof.
  intros Hne. destruct o; [|reflexivity].
  cbn. apply lookup_insert_ne. exact Hne.
Qed.

(** One step through a write that does not touch the option looked up. *)
Ltac skip_write :=
  first
    [ rewrite when_true
    | rewrite when_false
    | progress cbn [priv_data bit_rate rc_max_rate rc_buffer_size qmin qmax
                    max_b_frames delay set_priv_data set_bit_rate set_rc_max_rate
                    set_rc_buffer_size set_qmin set_qmax set_max_b_frames set_delay
                    av_opt_set av_opt_set_int av_opt_set_double fst snd]
    | rewrite lookup_insert_ne by (first [done | congruence])
    | rewrite lookup_match_set by (first [done | congruence])
    | rewrite lookup_when
        by (intros ?; cbv beta zeta; repeat skip_write; reflexivity) ].

(** Keys that differ, closed or by hypothesis. *)
Ltac key_neq := first [ assumption | congruence | (vm_compute; discriminate) ].

Lemma get_int_set_ne (k k' : string) (v : Z) (s : gmap string obs_data_item) :
  k <> k' -> obs_data_get_int (obs_data_set_int k' v s) k = obs_data_get_int s k.
Proof.
  intros Hne. unfold obs_data_get_int, obs_data_set_int.
  rewrite lookup_insert_ne by congruence. reflexivity.
Qed.

Lemma get_bool_set_ne (k k' : string) (v : Z) (s : gmap string obs_data_item) :
  k <> k' -> obs_data_get_bool (obs_data_set_int k' v s) k = obs_data_get_bool s k.
Proof.
  intros Hne. unfold obs_data_get_bool, obs_data_set_int.
  rewrite lookup_insert_ne by congruence. reflexivity.
Qed.

Lemma get_double_set_ne (k k' : string) (v : Z) (s : gmap string obs_data_item) :
  k <> k' -> obs_data_get_double (obs_data_set_int k' v s) k = obs_data_get_double s k.
Proof.
  intros Hne. unfold obs_data_get_double, obs_data_set_int.
  rewrite lookup_insert_ne by congruence. reflexivity.
Qed.

(** The same step under a field [p] of the context. *)
Ltac skip_field p :=
  first
    [ rewrite when_true
    | rewrite when_false
    | progress cbn [priv_data bit_rate rc_max_rate rc_buffer_size qmin qmax
                    max_b_frames delay set_priv_data set_bit_rate set_rc_max_rate
                    set_rc_buffer_size set_qmin set_qmax set_max_b_frames set_delay
                    av_opt_set av_opt_set_int av_opt_set_double fst snd]
    | rewrite (when_frame p)
        by (intros ?; cbv beta zeta; repeat skip_field p; reflexivity) ].

(** Opens the rate-control block on each mode, with the flags of the mode
    evaluated and the reads of the settings brought back to the settings the
    call received. *)
Ltac open_rate_control rc :=
  unfold update_rate_control; fold rc;
  destruct rc as [[]|]; cbv zeta; cbn [update_switch modified_ratecontrol_switch];
  cbn [have_bitrate have_bitrate_max have_quality have_qp have_qp_init
       set_have_bitrate set_have_bitrate_max set_have_quality set_have_qp
       set_have_qp_init have_none orb andb fst snd];
  repeat match goal with
    | |- context [Some ?m ≫= std_map_find ?t] =>
        let v := eval vm_compute in (Some m ≫= std_map_find t) in
        change (Some m ≫= std_map_find t) with v
    | |- context [@None ?E ≫= std_map_find ?t] =>
        change (@None E ≫= std_map_find t) with (@None string)
    end;
  rewrite ?when_true, ?when_false;
  rewrite ?get_int_set_ne, ?get_bool_set_ne, ?get_double_set_ne by key_neq.

(** Case analysis on the conditional write the stepping stops at. *)
Ltac split_write :=
  match goal with
  | |- context [priv_data (when (negb ?c) _ _) !! _] =>
      destruct c; cbn [negb]; [rewrite when_false | rewrite when_true];
      cbv beta zeta
  | |- context [priv_data (when ?c _ _) !! _] =>
      destruct c; [rewrite when_true | rewrite when_false]; cbv beta zeta
  end.

Section update_blocks.

Context `{nvenc_headers}.
Variables (settings : gmap string obs_data_item) (codec : AVCodec).
Variables (context : AVCodecContext) (log : list string).

(** The AQ block writes only its own options. *)
Lemma update_aq_frame (k : string) :
  k ∉ aq_options ->
  priv_data (update_aq settings codec context) !! k = priv_data context !! k.
Proof.
  unfold aq_options. rewrite !not_elem_of_cons. intros (? & ? & ? & ? & ? & _).
  unfold update_aq. cbv zeta.
  repeat skip_write. rewrite lookup_if. repeat skip_write.
  destruct (strcmp_eq _ _); reflexivity.
Qed.

(** The flags [update] computes are those of [modified_ratecontrol]. *)
Lemma update_switch_have (rc : option ratecontrolmode) :
  (update_switch rc context).1 = modified_ratecontrol_switch rc.
Proof. destruct rc as [[]|]; reflexivity. Qed.

Let rc := static_cast_ratecontrolmode (obs_data_get_int settings ST_RATECONTROL_MODE).
Let h := modified_ratecontrol_switch rc.
Let after_rc := update_rate_control settings codec context.

Lemma buffersize_not_bitrate : S_RATECONTROL_BUFFERSIZE <> "bitrate".
Proof.
  pose proof S_RATECONTROL_BUFFERSIZE_fresh as Hf.
  rewrite not_elem_of_cons in Hf. tauto.
Qed.

(** The rate-control block writes at most the replay-buffer key of the
    settings. *)
Lemma update_rate_control_settings :
  after_rc.1 =
    when (have_bitrate h)
      (obs_data_set_int "bitrate"
         (obs_data_get_int settings ST_RATECONTROL_BITRATE_TARGET)) settings.
Proof. subst after_rc h. open_rate_control rc; reflexivity. Qed.

Lemma update_rate_control_get_int (k : string) :
  k <> "bitrate" -> obs_data_get_int after_rc.1 k = obs_data_get_int settings k.
Proof.
  intros Hk. rewrite update_rate_control_settings.
  destruct (have_bitrate h); [|reflexivity].
  rewrite when_true. apply get_int_set_ne, Hk.
Qed.

Lemma update_rate_control_cbr :
  priv_data after_rc.2 !! "cbr" =
    Some (AVInt match rc with
                | Some CBR | Some CBR_HQ | Some CBR_LD_HQ => 1
                | _ => 0
                end).
Proof.
  subst after_rc. open_rate_control rc.
  all: repeat skip_write; apply lookup_insert_eq.
Qed.

Lemma update_rate_control_rc :
  priv_data after_rc.2 !! "rc" =
    match rc ≫= std_map_find ratecontrolmode_to_opt with
    | Some opt => Some (AVString (Some opt))
    | None => priv_data context !! "rc"
    end.
Proof.
  subst after_rc. open_rate_control rc.
  all: repeat skip_write; cbn; rewrite ?lookup_insert_eq; reflexivity.
Qed.

Lemma update_rate_control_no_scenecut :
  let la := static_cast_int (obs_data_get_int settings ST_RATECONTROL_LOOKAHEAD) in
  let adapt_i := obs_data_get_int settings ST_RATECONTROL_ADAPTIVEI in
  priv_data after_rc.2 !! "no-scenecut" =
    if (0 <? la) && negb (is_tristate_default adapt_i) then Some (AVInt adapt_i)
    else priv_data context !! "no-scenecut".
Proof.
  subst after_rc. open_rate_control rc.
  all: repeat skip_write; split_write; cbn [andb negb]; repeat skip_write.
  all: try split_write; cbn [andb negb]; repeat skip_write.
  all: rewrite ?lookup_insert_eq; try reflexivity.
  all: case_match; repeat skip_write; reflexivity.
Qed.

Lemma update_rate_control_b_adapt :
  let la := static_cast_int (obs_data_get_int settings ST_RATECONTROL_LOOKAHEAD) in
  let adapt_b := obs_data_get_int settings ST_RATECONTROL_ADAPTIVEB in
  priv_data after_rc.2 !! "b_adapt" =
    if (0 <? la) && negb (strcmp_eq (name codec) "h264_nvenc")
       && negb (is_tristate_default adapt_b)
    then Some (AVInt adapt_b)
    else priv_data context !! "b_adapt".
Proof.
  subst after_rc. open_rate_control rc.
  all: repeat skip_write; split_write; cbn [andb negb]; repeat skip_write.
  all: try split_write; cbn [andb negb]; repeat skip_write.
  all: try split_write; cbn [andb negb]; repeat skip_write.
  all: rewrite ?lookup_insert_eq; try reflexivity.
  all: case_match; repeat skip_write; reflexivity.
Qed.

Lemma update_rate_control_cq :
  let v :=
    Double.mul
      (Double.div (obs_data_get_double settings ST_RATECONTROL_QUALITY_TARGET)
         (Double.of_Z 100))
      (Double.of_Z 51) in
  priv_data after_rc.2 !! "cq" =
    if Double.gt v (Double.of_Z 0) then Some (AVDouble v)
    else priv_data context !! "cq".
Proof.
  subst after_rc. open_rate_control rc.
  all: repeat skip_write; split_write; repeat skip_write.
  all: rewrite ?lookup_insert_eq; reflexivity.
Qed.

Lemma update_rate_control_init_qp :
  priv_data after_rc.2 !! "init_qpI" =
    (if have_qp_init h then
       Some (AVInt (obs_data_get_int settings ST_RATECONTROL_QP_I_INITIAL))
     else if have_qp h then
       Some (AVInt (static_cast_int (obs_data_get_int settings ST_RATECONTROL_QP_I)))
     else priv_data context !! "init_qpI") /\
  priv_data after_rc.2 !! "init_qpP" =
    (if have_qp_init h then
       Some (AVInt (obs_data_get_int settings ST_RATECONTROL_QP_P_INITIAL))
     else if have_qp h then
       Some (AVInt (static_cast_int (obs_data_get_int settings ST_RATECONTROL_QP_P)))
     else priv_data context !! "init_qpP") /\
  priv_data after_rc.2 !! "init_qpB" =
    (if have_qp_init h then
       Some (AVInt (obs_data_get_int settings ST_RATECONTROL_QP_B_INITIAL))
     else if have_qp h then
       Some (AVInt (static_cast_int (obs_data_get_int settings ST_RATECONTROL_QP_B)))
     else priv_data context !! "init_qpB").
Proof.
  subst after_rc h. open_rate_control rc.
  all: repeat split; repeat skip_write; rewrite ?lookup_insert_eq; reflexivity.
Qed.

(** The fields the rate-control block assigns, each under its flag. *)
Lemma update_rate_control_fields :
  bit_rate after_rc.2 =
    (if have_bitrate h then
       static_cast_int (obs_data_get_int settings ST_RATECONTROL_BITRATE_TARGET *ll 1000)
     else bit_rate context) /\
  rc_max_rate after_rc.2 =
    (if have_bitrate_max h then
       static_cast_int (obs_data_get_int settings ST_RATECONTROL_BITRATE_MAXIMUM *ll 1000)
     else rc_max_rate context) /\
  rc_buffer_size after_rc.2 =
    (if have_bitrate h || have_bitrate_max h then
       static_cast_int (obs_data_get_int settings S_RATECONTROL_BUFFERSIZE *ll 1000)
     else rc_buffer_size context) /\
  qmin after_rc.2 =
    (if have_quality h && obs_data_get_bool settings ST_RATECONTROL_QUALITY then
       static_cast_int (obs_data_get_int settings ST_RATECONTROL_QUALITY_MINIMUM)
     else qmin context) /\
  qmax after_rc.2 =
    (if have_quality h && obs_data_get_bool settings ST_RATECONTROL_QUALITY
        && (0 <=? static_cast_int
                    (obs_data_get_int settings ST_RATECONTROL_QUALITY_MINIMUM))
     then static_cast_int (obs_data_get_int settings ST_RATECONTROL_QUALITY_MAXIMUM)
     else qmax context) /\
  max_b_frames after_rc.2 = max_b_frames context.
Proof.
  pose proof buffersize_not_bitrate as Hbuf.
  subst after_rc h. open_rate_control rc.
  all: repeat split.
  all: try (repeat skip_field bit_rate; repeat case_match; reflexivity).
  all: try (repeat skip_field rc_max_rate; repeat case_match; reflexivity).
  all: try (repeat skip_field rc_buffer_size; repeat case_match; reflexivity).
  all: try (repeat skip_field max_b_frames; repeat case_match; reflexivity).
  all: try (repeat skip_field qmin;
            try (destruct (obs_data_get_bool settings ST_RATECONTROL_QUALITY);
                 rewrite ?when_true, ?when_false; cbv beta zeta);
            repeat skip_field qmin; repeat case_match; reflexivity).
  all: repeat skip_field qmax;
       try (destruct (obs_data_get_bool settings ST_RATECONTROL_QUALITY);
            rewrite ?when_true, ?when_false; cbv beta zeta; cbn [andb];
            try destruct (0 <=? _); rewrite ?when_true, ?when_false);
       repeat skip_field qmax; repeat case_match; reflexivity.
Qed.

(** The rate-control block writes only its own options. *)
Lemma update_rate_control_frame (k : string) :
  k ∉ rate_control_options ->
  priv_data after_rc.2 !! k = priv_data context !! k.
Proof.
  unfold rate_control_options. rewrite !not_elem_of_cons.
  intros (? & ? & ? & ? & ? & ? & ? & ? & ? & ? & _).
  subst after_rc. open_rate_control rc.
  all: repeat skip_write; reflexivity.
Qed.

(** The preset block writes the ["preset"] option and nothing else. *)
Lemma update_preset_frame (k : string) :
  k <> "preset" ->
  priv_data (update_preset settings context) !! k = priv_data context !! k.
Proof.
  intros Hk. unfold update_preset. cbv zeta.
  case_match; cbn; rewrite lookup_insert_ne by congruence; reflexivity.
Qed.

Lemma update_preset_fields :
  update_preset settings context
  = set_priv_data (fun _ => priv_data (update_preset settings context)) context.
Proof.
  unfold update_preset. cbv zeta. case_match; reflexivity.
Qed.

Lemma update_preset_keeps_fields :
  bit_rate (update_preset settings context) = bit_rate context /\
  rc_max_rate (update_preset settings context) = rc_max_rate context /\
  rc_buffer_size (update_preset settings context) = rc_buffer_size context /\
  qmin (update_preset settings context) = qmin context /\
  qmax (update_preset settings context) = qmax context.
Proof. rewrite update_preset_fields. cbn. repeat split; reflexivity. Qed.

(** The AQ block changes private options only. *)
Lemma update_aq_fields :
  update_aq settings codec context
  = set_priv_data (fun _ => priv_data (update_aq settings codec context)) context.
Proof.
  unfold update_aq. cbv zeta.
  destruct (strcmp_eq _ _), (is_tristate_default _), (is_tristate_default _),
    (is_tristate_enabled _); destruct context; reflexivity.
Qed.

(** The block [// Other] assigns the B-frame count from the settings. *)
Lemma update_other_max_b_frames :
  max_b_frames (update_other settings codec context log).1
  = static_cast_int (obs_data_get_int settings ST_OTHER_BFRAMES).
Proof.
  unfold update_other. cbv zeta.
  repeat skip_field max_b_frames.
  repeat case_match; simplify_eq; repeat skip_field max_b_frames; reflexivity.
Qed.

(** Of the fields, the block [// Other] changes the B-frame count only. *)
Lemma update_other_fields :
  (update_other settings codec context log).1
  = set_max_b_frames (static_cast_int (obs_data_get_int settings ST_OTHER_BFRAMES))
      (set_priv_data
         (fun _ => priv_data (update_other settings codec context log).1) context).
Proof.
  unfold update_other. cbv zeta.
  repeat skip_field max_b_frames.
  destruct (is_tristate_default (obs_data_get_int settings ST_OTHER_ZEROLATENCY)),
    (is_tristate_default (obs_data_get_int settings ST_OTHER_NONREFERENCE_PFRAMES)),
    (is_tristate_default (obs_data_get_int settings ST_OTHER_WEIGHTED_PREDICTION)),
    (negb _ && _), (_ ≫= _); reflexivity.
Qed.

(** The block [// Other] writes only its own options. *)
Lemma update_other_frame (k : string) :
  k ∉ other_options ->
  priv_data (update_other settings codec context log).1 !! k = priv_data context !! k.
Proof.
  unfold other_options. rewrite !not_elem_of_cons. intros (? & ? & ? & ? & _).
  unfold update_other. cbv zeta.
  repeat skip_field max_b_frames.
  destruct (negb _ && _); cbn [fst snd]; repeat skip_write; reflexivity.
Qed.

(** The weighted-prediction option as the block [// Other] leaves it. *)
Lemma update_other_weighted_pred :
  let b_frames := static_cast_int (obs_data_get_int settings ST_OTHER_BFRAMES) in
  let wp := obs_data_get_int settings ST_OTHER_WEIGHTED_PREDICTION in
  priv_data (update_other settings codec context log).1 !! "weighted_pred" =
    if negb (b_frames =? 0) && is_tristate_enabled wp then Some (AVInt 0)
    else if is_tristate_default wp then priv_data context !! "weighted_pred"
    else Some (AVInt wp).
Proof.
  unfold update_other. cbv zeta.
  repeat skip_field max_b_frames.
  destruct (negb _ && _); cbn [fst snd]; repeat skip_write.
  - apply lookup_insert_eq.
  - split_write; repeat skip_write; rewrite ?lookup_insert_eq; reflexivity.
Qed.

(** The log as the block [// Other] leaves it. *)
Lemma update_other_log :
  let b_frames := static_cast_int (obs_data_get_int settings ST_OTHER_BFRAMES) in
  let wp := obs_data_get_int settings ST_OTHER_WEIGHTED_PREDICTION in
  (update_other settings codec context log).2 =
    if negb (b_frames =? 0) && is_tristate_enabled wp then
      (log ++ ["[" +:+ name codec
                 +:+ "] Weighted Prediction disabled because of B-Frames being used."])%list
    else log.
Proof.
  unfold update_other. cbv zeta.
  repeat skip_field max_b_frames.
  destruct (negb _ && _); reflexivity.
Qed.

End update_blocks.

(** ** The option translator *)

(** Membership of a closed name in a closed list of names. *)
Ltac not_listed := apply (bool_decide_unpack _); vm_compute; exact I.

Section update.

Context `{nvenc_headers}.
Variables (settings : gmap string obs_data_item) (codec : AVCodec).
Variables (context : AVCodecContext) (log : list string).

Let rc := static_cast_ratecontrolmode (obs_data_get_int settings ST_RATECONTROL_MODE).
Let h := modified_ratecontrol_switch rc.
Let after_rc := update_rate_control settings codec (update_preset settings context).
Let after := update settings codec context log.

(** [update] as the sequence of its four blocks. *)
Lemma update_blocks :
  after =
    let after_aq := update_aq after_rc.1 codec after_rc.2 in
    let after_other := update_other after_rc.1 codec after_aq log in
    {| settings_after := after_rc.1;
       context_after := after_other.1;
       log_after := after_other.2 |}.
Proof.
  unfold after, after_rc, update.
  destruct (update_rate_control _ _ _) as [s c]. cbn [fst snd].
  destruct (update_other _ _ _ _). reflexivity.
Qed.

(** An option of the rate-control block is, after the call, as that block
    left it. *)
Lemma update_keeps_rate_control (k : string) :
  k ∉ aq_options -> k ∉ other_options ->
  priv_data (context_after after) !! k = priv_data after_rc.2 !! k.
Proof.
  intros Haq Hother. rewrite update_blocks. cbn.
  rewrite update_other_frame by exact Hother.
  apply update_aq_frame, Haq.
Qed.

(** The fields the rate-control block assigns are, after the call, as that
    block left them, and the preset block before it does not change them. *)
Lemma update_keeps_fields :
  bit_rate (context_after after) = bit_rate after_rc.2 /\
  rc_max_rate (context_after after) = rc_max_rate after_rc.2 /\
  rc_buffer_size (context_after after) = rc_buffer_size after_rc.2 /\
  qmin (context_after after) = qmin after_rc.2 /\
  qmax (context_after after) = qmax after_rc.2.
Proof.
  rewrite update_blocks. cbn [context_after].
  rewrite update_other_fields, update_aq_fields. cbn. repeat split; reflexivity.
Qed.

(** C4 (as amended): [update] changes nothing of the settings but the
    replay-buffer key ["bitrate"], to which it writes the bitrate target in
    every mode that has a bitrate (the constant- and variable-bitrate modes);
    in the other modes it leaves the settings as they are. *)
Theorem update_settings :
  settings_after after =
    match rc with
    | Some CBR | Some CBR_HQ | Some CBR_LD_HQ | Some VBR | Some VBR_HQ =>
        <["bitrate" := ObsInt (obs_data_get_int settings ST_RATECONTROL_BITRATE_TARGET)]>
          settings
    | Some CQP | None => settings
    end.
Proof.
  rewrite update_blocks. cbn [settings_after]. unfold after_rc.
  rewrite update_rate_control_settings. fold rc.
  destruct rc as [[]|]; reflexivity.
Qed.

(** C7: after [update] the ["cbr"] option is 1 when the mode is CBR, CBR_HQ
    or CBR_LD_HQ and 0 for every other mode value, whatever the option held
    before the call. *)
Theorem update_cbr :
  priv_data (context_after after) !! "cbr" =
    Some (AVInt match rc with
                | Some CBR | Some CBR_HQ | Some CBR_LD_HQ => 1
                | Some CQP | Some VBR | Some VBR_HQ | None => 0
                end).
Proof.
  rewrite update_keeps_rate_control by not_listed. unfold after_rc.
  rewrite update_rate_control_cbr. fold rc.
  destruct rc as [[]|]; reflexivity.
Qed.

(** C8: [update] converts the quality target [v] to [v / 100.0 * 51.0] in
    double arithmetic and writes the result to the ["cq"] option exactly
    when it is greater than zero; otherwise the option is left as it was.
    The conversion takes 0 to 0, which is not written, 100 to 51.0 and 50 to
    25.5. *)
Theorem update_cq :
  let convert (v : spec_float) :=
    Double.mul (Double.div v (Double.of_Z 100)) (Double.of_Z 51) in
  let v := convert (obs_data_get_double settings ST_RATECONTROL_QUALITY_TARGET) in
  priv_data (context_after after) !! "cq" =
    (if Double.gt v (Double.of_Z 0) then Some (AVDouble v)
     else priv_data context !! "cq") /\
  convert (Double.of_Z 0) = Double.of_Z 0 /\
  Double.gt (convert (Double.of_Z 0)) (Double.of_Z 0) = false /\
  convert (Double.of_Z 100) = Double.of_Z 51 /\
  convert (Double.of_Z 50) = Double.scaled 51 (-1).
Proof.
  cbv zeta. split; [|repeat split; vm_compute; reflexivity].
  rewrite update_keeps_rate_control by not_listed. unfold after_rc.
  rewrite update_rate_control_cq. cbv zeta.
  rewrite update_preset_frame by discriminate. reflexivity.
Qed.

(** C9: [update] writes the adaptive-I option (["no-scenecut"]) exactly when
    the lookahead is greater than zero and the tri-state is not Default, and
    the adaptive-B option (["b_adapt"]) exactly when, in addition, the codec
    is not named "h264_nvenc"; with a lookahead of zero it writes neither. *)
Theorem update_adaptive :
  let la := static_cast_int (obs_data_get_int settings ST_RATECONTROL_LOOKAHEAD) in
  let adapt_i := obs_data_get_int settings ST_RATECONTROL_ADAPTIVEI in
  let adapt_b := obs_data_get_int settings ST_RATECONTROL_ADAPTIVEB in
  priv_data (context_after after) !! "no-scenecut" =
    (if (0 <? la) && negb (is_tristate_default adapt_i) then Some (AVInt adapt_i)
     else priv_data context !! "no-scenecut") /\
  priv_data (context_after after) !! "b_adapt" =
    (if (0 <? la) && negb (strcmp_eq (name codec) "h264_nvenc")
        && negb (is_tristate_default adapt_b)
     then Some (AVInt adapt_b)
     else priv_data context !! "b_adapt").
Proof.
  cbv zeta. rewrite !update_keeps_rate_control by not_listed. unfold after_rc.
  rewrite update_rate_control_no_scenecut, update_rate_control_b_adapt. cbv zeta.
  rewrite !update_preset_frame by discriminate. split; reflexivity.
Qed.

(** C6: when the B-frame count that [update] assigns is not zero and the
    weighted-prediction tri-state is Enabled, the ["weighted_pred"] option
    is written as 0 and a warning is logged; in every other case no warning
    is logged and the option is written with the requested value, or left
    as it was when the tri-state is Default. *)
Theorem update_weighted_prediction :
  let b_frames := max_b_frames (context_after after) in
  let wp := obs_data_get_int settings ST_OTHER_WEIGHTED_PREDICTION in
  b_frames = static_cast_int (obs_data_get_int settings ST_OTHER_BFRAMES) /\
  priv_data (context_after after) !! "weighted_pred" =
    (if negb (b_frames =? 0) && is_tristate_enabled wp then Some (AVInt 0)
     else if is_tristate_default wp then priv_data context !! "weighted_pred"
     else Some (AVInt wp)) /\
  log_after after =
    (if negb (b_frames =? 0) && is_tristate_enabled wp then
       (log ++ ["[" +:+ name codec
                  +:+ "] Weighted Prediction disabled because of B-Frames being used."])%list
     else log).
Proof.
  cbv zeta. rewrite update_blocks. cbn [context_after log_after].
  rewrite update_other_max_b_frames, update_other_weighted_pred, update_other_log.
  cbv zeta. unfold after_rc.
  rewrite !update_rate_control_get_int by key_neq.
  rewrite update_aq_frame by not_listed.
  rewrite update_rate_control_frame by not_listed.
  rewrite update_preset_frame by discriminate.
  repeat split; reflexivity.
Qed.

(** C10: for a mode value that is none of the six enumerators, [update]
    leaves the ["rc"] option as it was, sets ["cbr"] to 0, and leaves
    [bit_rate], [rc_max_rate], [rc_buffer_size], [qmin], [qmax] and the
    options ["init_qpI"], ["init_qpP"] and ["init_qpB"] as they were. *)
Theorem update_unknown_mode :
  rc = None ->
  priv_data (context_after after) !! "rc" = priv_data context !! "rc" /\
  priv_data (context_after after) !! "cbr" = Some (AVInt 0) /\
  bit_rate (context_after after) = bit_rate context /\
  rc_max_rate (context_after after) = rc_max_rate context /\
  rc_buffer_size (context_after after) = rc_buffer_size context /\
  qmin (context_after after) = qmin context /\
  qmax (context_after after) = qmax context /\
  priv_data (context_after after) !! "init_qpI" = priv_data context !! "init_qpI" /\
  priv_data (context_after after) !! "init_qpP" = priv_data context !! "init_qpP" /\
  priv_data (context_after after) !! "init_qpB" = priv_data context !! "init_qpB".
Proof.
  intros Hrc.
  destruct update_keeps_fields as (-> & -> & -> & -> & ->).
  rewrite !update_keeps_rate_control by not_listed. unfold after_rc.
  destruct (update_rate_control_fields settings codec (update_preset settings context))
    as (-> & -> & -> & -> & -> & _).
  destruct (update_rate_control_init_qp settings codec (update_preset settings context))
    as (-> & -> & ->).
  rewrite update_rate_control_rc, update_rate_control_cbr.
  fold rc. rewrite Hrc. cbn.
  destruct (update_preset_keeps_fields settings context) as (-> & -> & -> & -> & ->).
  rewrite !update_preset_frame by discriminate.
  repeat split; reflexivity.
Qed.

End update.

(** ** Visibility of the rate-control fields *)

Section modified_ratecontrol.

Context `{nvenc_headers}.
Variables (props : gmap string obs_property) (settings : gmap string obs_data_item).
Variables (codec : AVCodec) (context : AVCodecContext) (log : list string).

Let rc := static_cast_ratecontrolmode (obs_data_get_int settings ST_RATECONTROL_MODE).
Let h := modified_ratecontrol_switch rc.
Let after := context_after (update settings codec context log).



End modified_ratecontrol.

(** ** The translator on concrete settings *)

(** C4 fails as it is worded: on the default settings, whose mode is CBR_HQ,
    [update] changes the settings: the key ["bitrate"] goes from 0 to the
    bitrate target, 6000. *)
Lemma update_writes_replay_buffer_key :
  let after := update default_settings h264_nvenc avcodec_alloc_context3 [] in
  obs_data_get_int default_settings "bitrate" = 0 /\
  obs_data_get_int (settings_after after) "bitrate" = 6000 /\
  settings_after after <> default_settings.
Proof.
  cbv zeta. split; [vm_compute; reflexivity|]. split; [vm_compute; reflexivity|].
  intros Heq.
  apply (f_equal (fun s => obs_data_get_int s "bitrate")) in Heq.
  vm_compute in Heq. discriminate.
Qed.


(** The mutual exclusion on the default settings, which ask for two
    B-frames, with weighted prediction Enabled: the option is written as 0
    and the warning is logged. *)
Lemma update_weighted_prediction_with_b_frames :
  let settings := obs_data_set_int ST_OTHER_WEIGHTED_PREDICTION 1 default_settings in
  let after := update settings h264_nvenc avcodec_alloc_context3 [] in
  max_b_frames (context_after after) = 2 /\
  priv_data (context_after after) !! "weighted_pred" = Some (AVInt 0) /\
  log_after after =
    ["[h264_nvenc] Weighted Prediction disabled because of B-Frames being used."].
Proof.
  cbv zeta. repeat split; vm_compute; reflexivity.
Qed.

(** A VBR selection after a CBR selection on the same context: the ["cbr"]
    option goes from 1 back to 0. *)
Lemma update_cbr_after_cbr :
  let first := update default_settings h264_nvenc avcodec_alloc_context3 [] in
  let settings :=
    obs_data_set_int ST_RATECONTROL_MODE (ratecontrolmode_value VBR)
      (settings_after first) in
  let second := update settings h264_nvenc (context_after first) (log_after first) in
  priv_data (context_after first) !! "cbr" = Some (AVInt 1) /\
  priv_data (context_after second) !! "cbr" = Some (AVInt 0).
Proof.
  cbv zeta. split; vm_compute; reflexivity.
Qed.

(** The mode value 42 is no enumerator: [update] on a context that a CBR_HQ
    session has configured keeps its ["rc"] option and its bit rate, and
    sets ["cbr"] back to 0. *)
Lemma update_unknown_mode_after_cbr :
  let prior :=
    context_after (update default_settings h264_nvenc avcodec_alloc_context3 []) in
  let settings := obs_data_set_int ST_RATECONTROL_MODE 42 default_settings in
  let after := context_after (update settings h264_nvenc prior []) in
  static_cast_ratecontrolmode (obs_data_get_int settings ST_RATECONTROL_MODE) = None /\
  priv_data prior !! "cbr" = Some (AVInt 1) /\
  priv_data after !! "cbr" = Some (AVInt 0) /\
  priv_data after !! "rc" = Some (AVString (Some "cbr_hq")) /\
  bit_rate after = 6000000.
Proof.
  cbv zeta.
  assert (static_cast_ratecontrolmode
            (obs_data_get_int
               (obs_data_set_int ST_RATECONTROL_MODE 42 default_settings)
               ST_RATECONTROL_MODE) = None) as Hnone
    by (vm_compute; reflexivity).
  destruct (update_unknown_mode
              (obs_data_set_int ST_RATECONTROL_MODE 42 default_settings)
              h264_nvenc
              (context_after
                 (update default_settings h264_nvenc avcodec_alloc_context3 []))
              [] Hnone)
    as (Hrc & Hcbr & Hbit & _).
  split; [exact Hnone|]. split; [vm_compute; reflexivity|].
  split; [exact Hcbr|]. split.
  - rewrite Hrc. vm_compute. reflexivity.
  - rewrite Hbit. vm_compute. reflexivity.
Defined.

(** The default settings through [update] and then [override_update]: a
    CBR_HQ session at 6000 kbit/s with two B-frames gets 12 surfaces and
    a delay of 3. *)
Lemma default_configuration :
  let applied :=
    context_after (update default_settings h264_nvenc avcodec_alloc_context3 []) in
  let final := override_update applied in
  priv_data applied !! "preset" = Some (AVString (Some "default")) /\
  priv_data applied !! "rc" = Some (AVString (Some "cbr_hq")) /\
  priv_data applied !! "cbr" = Some (AVInt 1) /\
  priv_data applied !! "rc-lookahead" = Some (AVInt 0) /\
  priv_data applied !! "cq" = None /\
  priv_data applied !! "b_ref_mode" = Some (AVString (Some "disabled")) /\
  bit_rate applied = 6000000 /\
  rc_buffer_size applied = 12000000 /\
  max_b_frames applied = 2 /\
  priv_data final !! "surfaces" = Some (AVInt 12) /\
  delay final = 3.
Proof.
  cbv zeta. repeat split; vm_compute; reflexivity.
Qed.

(** * Further properties of the module *)

(** ** Resource derivation: what it keeps and how it repeats *)

Lemma av_opt_get_int_set_eq (k : string) (v out : Z) (c : AVCodecContext) :
  av_opt_get_int (av_opt_set_int k v c) k out = v.
Proof. unfold av_opt_get_int. cbn. rewrite lookup_insert_eq. reflexivity. Qed.

Lemma av_opt_get_int_set_ne (k k' : string) (v out : Z) (c : AVCodecContext) :
  k' <> k ->
  av_opt_get_int (av_opt_set_int k' v c) k out = av_opt_get_int c k out.
Proof.
  intros Hne. unfold av_opt_get_int. cbn.
  rewrite lookup_insert_ne by exact Hne. reflexivity.
Qed.

(** The surface count [override_update] derives is at least 4, also where
    the 64-bit arithmetic wraps. *)
Lemma derived_surfaces_min (la b : Z) :
  4 <= (if 0 <? la then Z.max 1 (Z.max (Z.max 4 ((b +ll 1) *ll 4)) (la +ll (b +ll 5)))
        else if 0 <? b then Z.max 4 ((b +ll 1) *ll 4)
        else 4).
Proof. repeat case_match; lia. Qed.

Section override_update_more.

Variable context : AVCodecContext.

(** After [override_update] the surface count is set: the ["surfaces"]
    option does not read back as zero, and a count the call derived is at
    least 4, whatever the lookahead and the B-frame count are. *)
Theorem override_update_sets_surfaces :
  av_opt_get_int (override_update context) "surfaces" 0 <> 0 /\
  (av_opt_get_int context "surfaces" 0 = 0 ->
   4 <= av_opt_get_int (override_update context) "surfaces" 0).
Proof.
  unfold override_update.
  destruct (Z.eqb_spec (av_opt_get_int context "surfaces" 0) 0) as [Hz|Hnz].
  - cbn [fst snd].
    change (av_opt_get_int (set_delay ?d ?c) ?k ?o) with (av_opt_get_int c k o).
    rewrite av_opt_get_int_set_eq.
    pose proof (derived_surfaces_min (av_opt_get_int context "rc-lookahead" 0)
                  (max_b_frames context)).
    split; [lia | intros _; assumption].
  - change (av_opt_get_int (set_delay ?d ?c) ?k ?o) with (av_opt_get_int c k o).
    split; [exact Hnz | intros Hz; contradiction].
Qed.

(** [override_update] run a second time changes nothing: the surface count
    the first run stored is kept, and the delay comes out the same. *)
Theorem override_update_idempotent :
  override_update (override_update context) = override_update context.
Proof.
  assert (av_opt_get_int (override_update context) "surfaces" 0 <> 0 /\
          av_opt_get_int (override_update context) "rc-lookahead" 0
          = av_opt_get_int context "rc-lookahead" 0 /\
          av_opt_get_int (override_update context) "async_depth" 0
          = av_opt_get_int context "async_depth" 0 /\
          delay (override_update context)
          = static_cast_int
              (Z.min (Z.max (av_opt_get_int context "async_depth" 0) 3)
                 (av_opt_get_int (override_update context) "surfaces" 0 -ll 1)))
    as (Hset & Hla & Ha & Hd).
  { unfold override_update.
    pose proof (derived_surfaces_min (av_opt_get_int context "rc-lookahead" 0)
                  (max_b_frames context)) as Hmin.
    destruct (Z.eqb_spec (av_opt_get_int context "surfaces" 0) 0); cbn [fst snd];
      change (av_opt_get_int (set_delay ?d ?c) ?k ?o) with (av_opt_get_int c k o);
      rewrite ?av_opt_get_int_set_eq, ?av_opt_get_int_set_ne by discriminate;
      repeat split; first [reflexivity | lia | assumption]. }
  revert Hset Hla Ha Hd. generalize (override_update context) as c.
  intros c Hset Hla Ha Hd. unfold override_update at 1.
  apply Z.eqb_neq in Hset. rewrite Hset, Ha, <- Hd.
  destruct c; reflexivity.
Qed.

(** [override_update] writes the ["surfaces"] option and the [delay] field
    and nothing else: every other private option and every other field is as
    before, and so is ["surfaces"] when it was set. *)
Theorem override_update_frame :
  (forall k : string,
     k <> "surfaces" ->
     priv_data (override_update context) !! k = priv_data context !! k) /\
  (av_opt_get_int context "surfaces" 0 <> 0 ->
   priv_data (override_update context) = priv_data context) /\
  bit_rate (override_update context) = bit_rate context /\
  rc_max_rate (override_update context) = rc_max_rate context /\
  rc_buffer_size (override_update context) = rc_buffer_size context /\
  qmin (override_update context) = qmin context /\
  qmax (override_update context) = qmax context /\
  max_b_frames (override_update context) = max_b_frames context.
Proof.
  unfold override_update.
  destruct (Z.eqb_spec (av_opt_get_int context "surfaces" 0) 0) as [Hz|Hnz].
  - cbn. split; [|split; [intros Hnz; contradiction | repeat split]].
    intros k Hk. apply lookup_insert_ne. congruence.
  - cbn. repeat split.
Qed.

End override_update_more.

(** ** What [update] writes *)

Lemma default_later {A : Type} (x : A) (new old : option A) :
  default (default x old) new = default x (later new old).
Proof. destruct new, old; reflexivity. Qed.

Lemma default_twice {A : Type} (x : A) (o : option A) :
  default (default x o) o = default x o.
Proof. destruct o; reflexivity. Qed.

Lemma write_no_writes (c : AVCodecContext) : write no_writes c = c.
Proof.
  destruct c. unfold write, no_writes. cbn.
  rewrite (left_id_L ∅ (∪)). reflexivity.
Qed.

Lemma write_followed_by (w1 w2 : writes) (c : AVCodecContext) :
  write w2 (write w1 c) = write (followed_by w1 w2) c.
Proof.
  unfold write, followed_by. cbn.
  rewrite (assoc_L (∪)), !default_later. reflexivity.
Qed.

(** Writing the same set of writes twice is writing it once. *)
Lemma write_idempotent (w : writes) (c : AVCodecContext) :
  write w (write w c) = write w c.
Proof.
  unfold write. cbn.
  rewrite (assoc_L (∪)), (idemp_L (∪)), !default_twice. reflexivity.
Qed.

Lemma writer_id : writer (fun c => c).
Proof. exists no_writes. intros c. symmetry. apply write_no_writes. Qed.

Lemma writer_compose (f g : AVCodecContext -> AVCodecContext) :
  writer f -> writer g -> writer (fun c => g (f c)).
Proof.
  intros [w1 H1] [w2 H2]. exists (followed_by w1 w2). intros c.
  rewrite H1, H2. apply write_followed_by.
Qed.

Lemma writer_when (b : bool) (f : AVCodecContext -> AVCodecContext) :
  writer f -> writer (when b f).
Proof. intros Hf. destruct b; [exact Hf | exact writer_id]. Qed.

Lemma writer_if (b : bool) (f g : AVCodecContext -> AVCodecContext) :
  writer f -> writer g -> writer (fun c => if b then f c else g c).
Proof. intros Hf Hg. destruct b; assumption. Qed.

Lemma writer_ext (f g : AVCodecContext -> AVCodecContext) :
  (forall c, f c = g c) -> writer g -> writer f.
Proof. intros Hfg [w Hw]. exists w. intros c. rewrite Hfg. apply Hw. Qed.

Lemma writer_insert (k : string) (x : av_option) :
  writer (set_priv_data <[k := x]>).
Proof.
  exists {| w_priv_data := {[k := x]}; w_bit_rate := None; w_rc_max_rate := None;
            w_rc_buffer_size := None; w_qmin := None; w_qmax := None;
            w_max_b_frames := None; w_delay := None |}.
  intros c. unfold write, set_priv_data. cbn.
  rewrite insert_union_singleton_l. reflexivity.
Qed.

Lemma writer_set_bit_rate (v : Z) : writer (set_bit_rate v).
Proof.
  exists {| w_priv_data := ∅; w_bit_rate := Some v; w_rc_max_rate := None;
            w_rc_buffer_size := None; w_qmin := None; w_qmax := None;
            w_max_b_frames := None; w_delay := None |}.
  intros c. unfold write, set_bit_rate. cbn.
  rewrite (left_id_L ∅ (∪)). reflexivity.
Qed.

Lemma writer_set_rc_max_rate (v : Z) : writer (set_rc_max_rate v).
Proof.
  exists {| w_priv_data := ∅; w_bit_rate := None; w_rc_max_rate := Some v;
            w_rc_buffer_size := None; w_qmin := None; w_qmax := None;
            w_max_b_frames := None; w_delay := None |}.
  intros c. unfold write, set_rc_max_rate. cbn.
  rewrite (left_id_L ∅ (∪)). reflexivity.
Qed.

Lemma writer_set_rc_buffer_size (v : Z) : writer (set_rc_buffer_size v).
Proof.
  exists {| w_priv_data := ∅; w_bit_rate := None; w_rc_max_rate := None;
            w_rc_buffer_size := Some v; w_qmin := None; w_qmax := None;
            w_max_b_frames := None; w_delay := None |}.
  intros c. unfold write, set_rc_buffer_size. cbn.
  rewrite (left_id_L ∅ (∪)). reflexivity.
Qed.

Lemma writer_set_qmin (v : Z) : writer (set_qmin v).
Proof.
  exists {| w_priv_data := ∅; w_bit_rate := None; w_rc_max_rate := None;
            w_rc_buffer_size := None; w_qmin := Some v; w_qmax := None;
            w_max_b_frames := None; w_delay := None |}.
  intros c. unfold write, set_qmin. cbn.
  rewrite (left_id_L ∅ (∪)). reflexivity.
Qed.

Lemma writer_set_qmax (v : Z) : writer (set_qmax v).
Proof.
  exists {| w_priv_data := ∅; w_bit_rate := None; w_rc_max_rate := None;
            w_rc_buffer_size := None; w_qmin := None; w_qmax := Some v;
            w_max_b_frames := None; w_delay := None |}.
  intros c. unfold write, set_qmax. cbn.
  rewrite (left_id_L ∅ (∪)). reflexivity.
Qed.

Lemma writer_set_max_b_frames (v : Z) : writer (set_max_b_frames v).
Proof.
  exists {| w_priv_data := ∅; w_bit_rate := None; w_rc_max_rate := None;
            w_rc_buffer_size := None; w_qmin := None; w_qmax := None;
            w_max_b_frames := Some v; w_delay := None |}.
  intros c. unfold write, set_max_b_frames. cbn.
  rewrite (left_id_L ∅ (∪)). reflexivity.
Qed.

(** Proves that a sequence of writes, conditional or not, is a [writer]. *)
Ltac writer_steps :=
  cbv beta zeta;
  lazymatch goal with
  | |- writer (fun c => c) => exact writer_id
  | |- writer (fun c => when ?b ?f (@?g c)) =>
      apply (writer_compose g (when b f));
      [writer_steps | apply writer_when; writer_steps]
  | |- writer (fun c => if ?b then @?f c else @?g c) =>
      apply (writer_if b f g); writer_steps
  | |- writer (fun c => match ?o with Some opt => @?f opt c | None => @?g c end) =>
      destruct o; writer_steps
  | |- writer (fun c => ?h (@?g c)) =>
      apply (writer_compose g h); writer_steps
  | |- writer (av_opt_set_int _ _) => apply writer_insert
  | |- writer (av_opt_set _ _) => apply writer_insert
  | |- writer (av_opt_set_double _ _) => apply writer_insert
  | |- writer (set_bit_rate _) => apply writer_set_bit_rate
  | |- writer (set_rc_max_rate _) => apply writer_set_rc_max_rate
  | |- writer (set_rc_buffer_size _) => apply writer_set_rc_buffer_size
  | |- writer (set_qmin _) => apply writer_set_qmin
  | |- writer (set_qmax _) => apply writer_set_qmax
  | |- writer (set_max_b_frames _) => apply writer_set_max_b_frames
  end.

Section update_writes.

Context `{nvenc_headers}.
Variables (settings : gmap string obs_data_item) (codec : AVCodec).

Lemma update_preset_writer : writer (update_preset settings).
Proof. unfold update_preset. writer_steps. Qed.

Lemma update_aq_writer : writer (update_aq settings codec).
Proof. unfold update_aq. writer_steps. Qed.

Lemma update_rate_control_writer :
  writer (fun c => (update_rate_control settings codec c).2).
Proof.
  unfold update_rate_control.
  destruct (static_cast_ratecontrolmode _) as [[]|]; cbv zeta;
    cbn [update_switch fst snd]; writer_steps.
Qed.

(** The context after the block [// Other], with the test of the B-frame
    count made on the value the block has just assigned. *)
Lemma update_other_context (context : AVCodecContext) (log : list string) :
  (update_other settings codec context log).1 =
    let zl := obs_data_get_int settings ST_OTHER_ZEROLATENCY in
    let wp := obs_data_get_int settings ST_OTHER_WEIGHTED_PREDICTION in
    let nrp := obs_data_get_int settings ST_OTHER_NONREFERENCE_PFRAMES in
    let b_frames := static_cast_int (obs_data_get_int settings ST_OTHER_BFRAMES) in
    let context := set_max_b_frames b_frames context in
    let context :=
      when (negb (is_tristate_default zl)) (av_opt_set_int "zerolatency" zl) context in
    let context :=
      when (negb (is_tristate_default nrp)) (av_opt_set_int "nonref_p" nrp) context in
    let context :=
      if negb (b_frames =? 0) && is_tristate_enabled wp then
        av_opt_set_int "weighted_pred" 0 context
      else
        when (negb (is_tristate_default wp)) (av_opt_set_int "weighted_pred" wp) context in
    match
      static_cast_b_ref_mode (obs_data_get_int settings ST_OTHER_BFRAME_REFERENCEMODE)
        ≫= std_map_find b_ref_mode_to_opt
    with
    | Some opt => av_opt_set "b_ref_mode" (Some opt) context
    | None => context
    end.
Proof.
  unfold update_other. cbv zeta.
  repeat skip_field max_b_frames.
  destruct (negb _ && _); reflexivity.
Qed.

Lemma update_other_writer (log : list string) :
  writer (fun c => (update_other settings codec c log).1).
Proof.
  eapply writer_ext; [intros c; apply update_other_context|].
  writer_steps.
Qed.

End update_writes.

(** ** Reads of the settings that the replay-buffer key does not reach *)

Lemma same_but_bitrate_get_int (s s' : gmap string obs_data_item) (k : string) :
  same_but_bitrate s s' -> k <> "bitrate" ->
  obs_data_get_int s k = obs_data_get_int s' k.
Proof. intros Hs Hk. unfold obs_data_get_int. rewrite (Hs k Hk). reflexivity. Qed.

Lemma same_but_bitrate_get_bool (s s' : gmap string obs_data_item) (k : string) :
  same_but_bitrate s s' -> k <> "bitrate" ->
  obs_data_get_bool s k = obs_data_get_bool s' k.
Proof. intros Hs Hk. unfold obs_data_get_bool. rewrite (Hs k Hk). reflexivity. Qed.

Lemma same_but_bitrate_get_double (s s' : gmap string obs_data_item) (k : string) :
  same_but_bitrate s s' -> k <> "bitrate" ->
  obs_data_get_double s k = obs_data_get_double s' k.
Proof. intros Hs Hk. unfold obs_data_get_double. rewrite (Hs k Hk). reflexivity. Qed.

Lemma same_but_bitrate_when (b : bool) (v : Z) (s : gmap string obs_data_item) :
  same_but_bitrate (when b (obs_data_set_int "bitrate" v) s) s.
Proof.
  intros k Hk. destruct b; [|reflexivity].
  rewrite when_true. unfold obs_data_set_int.
  apply lookup_insert_ne. congruence.
Qed.

(** Brings every read of the settings [s] to a read of [s'], the two being
    the same but for the replay-buffer key. *)
Ltac read_from s s' Hs :=
  rewrite ?(same_but_bitrate_get_int s s' ST_PRESET Hs),
    ?(same_but_bitrate_get_int s s' ST_RATECONTROL_MODE Hs),
    ?(same_but_bitrate_get_int s s' ST_RATECONTROL_TWOPASS Hs),
    ?(same_but_bitrate_get_int s s' ST_RATECONTROL_LOOKAHEAD Hs),
    ?(same_but_bitrate_get_int s s' ST_RATECONTROL_ADAPTIVEI Hs),
    ?(same_but_bitrate_get_int s s' ST_RATECONTROL_ADAPTIVEB Hs),
    ?(same_but_bitrate_get_int s s' ST_RATECONTROL_BITRATE_TARGET Hs),
    ?(same_but_bitrate_get_int s s' ST_RATECONTROL_BITRATE_MAXIMUM Hs),
    ?(same_but_bitrate_get_int s s' S_RATECONTROL_BUFFERSIZE Hs),
    ?(same_but_bitrate_get_bool s s' ST_RATECONTROL_QUALITY Hs),
    ?(same_but_bitrate_get_int s s' ST_RATECONTROL_QUALITY_MINIMUM Hs),
    ?(same_but_bitrate_get_int s s' ST_RATECONTROL_QUALITY_MAXIMUM Hs),
    ?(same_but_bitrate_get_double s s' ST_RATECONTROL_QUALITY_TARGET Hs),
    ?(same_but_bitrate_get_int s s' ST_RATECONTROL_QP_I Hs),
    ?(same_but_bitrate_get_int s s' ST_RATECONTROL_QP_P Hs),
    ?(same_but_bitrate_get_int s s' ST_RATECONTROL_QP_B Hs),
    ?(same_but_bitrate_get_int s s' ST_RATECONTROL_QP_I_INITIAL Hs),
    ?(same_but_bitrate_get_int s s' ST_RATECONTROL_QP_P_INITIAL Hs),
    ?(same_but_bitrate_get_int s s' ST_RATECONTROL_QP_B_INITIAL Hs),
    ?(same_but_bitrate_get_int s s' ST_AQ_SPATIAL Hs),
    ?(same_but_bitrate_get_int s s' ST_AQ_TEMPORAL Hs),
    ?(same_but_bitrate_get_int s s' ST_AQ_STRENGTH Hs),
    ?(same_but_bitrate_get_int s s' ST_OTHER_BFRAMES Hs),
    ?(same_but_bitrate_get_int s s' ST_OTHER_BFRAME_REFERENCEMODE Hs),
    ?(same_but_bitrate_get_int s s' ST_OTHER_ZEROLATENCY Hs),
    ?(same_but_bitrate_get_int s s' ST_OTHER_WEIGHTED_PREDICTION Hs),
    ?(same_but_bitrate_get_int s s' ST_OTHER_NONREFERENCE_PFRAMES Hs)
    by key_neq.

Section update_reads.

Context `{nvenc_headers}.
Variables (s s' : gmap string obs_data_item) (codec : AVCodec).
Variables (context : AVCodecContext) (log : list string).
Hypothesis Hs : same_but_bitrate s s'.

Lemma update_preset_reads : update_preset s context = update_preset s' context.
Proof. unfold update_preset. read_from s s' Hs. reflexivity. Qed.

Lemma update_aq_reads : update_aq s codec context = update_aq s' codec context.
Proof. unfold update_aq. read_from s s' Hs. reflexivity. Qed.

Lemma update_other_reads :
  update_other s codec context log = update_other s' codec context log.
Proof. unfold update_other. read_from s s' Hs. reflexivity. Qed.

Lemma update_rate_control_reads :
  (update_rate_control s codec context).2 = (update_rate_control s' codec context).2.
Proof.
  pose proof (buffersize_not_bitrate s codec context) as Hbuf.
  unfold update_rate_control.
  rewrite (same_but_bitrate_get_int s s' ST_RATECONTROL_MODE Hs) by key_neq.
  destruct (static_cast_ratecontrolmode _) as [[]|]; cbv zeta;
    cbn [update_switch have_bitrate have_bitrate_max have_quality have_qp
         have_qp_init set_have_bitrate set_have_bitrate_max set_have_quality
         set_have_qp set_have_qp_init have_none orb andb fst snd];
    rewrite ?when_true, ?when_false;
    repeat rewrite get_int_set_ne by key_neq;
    repeat rewrite get_bool_set_ne by key_neq;
    repeat rewrite get_double_set_ne by key_neq;
    read_from s s' Hs; reflexivity.
Qed.

End update_reads.

(** ** [update] as a whole: what it writes, what it leaves, how it repeats *)

Section update_whole.

Context `{nvenc_headers}.

(** The log has no part in what the block [// Other] leaves of the
    context. *)
Lemma update_other_context_log (settings : gmap string obs_data_item)
    (codec : AVCodec) (context : AVCodecContext) (log : list string) :
  (update_other settings codec context log).1
  = (update_other settings codec context []).1.
Proof.
  unfold update_other. cbv zeta. destruct (negb _ && _); reflexivity.
Qed.

(** The settings as the rate-control block leaves them are the settings it
    received but for the replay-buffer key. *)
Lemma update_rate_control_same_but_bitrate (settings : gmap string obs_data_item)
    (codec : AVCodec) (context : AVCodecContext) :
  same_but_bitrate (update_rate_control settings codec context).1 settings.
Proof. rewrite update_rate_control_settings. apply same_but_bitrate_when. Qed.

(** The context after [update], with every block reading the settings the
    call received. *)
Lemma update_context (settings : gmap string obs_data_item) (codec : AVCodec)
    (context : AVCodecContext) (log : list string) :
  context_after (update settings codec context log)
  = (update_other settings codec
       (update_aq settings codec
          (update_rate_control settings codec (update_preset settings context)).2)
       []).1.
Proof.
  rewrite update_blocks. cbn [context_after].
  pose proof (update_rate_control_same_but_bitrate settings codec
                (update_preset settings context)) as Hsame.
  rewrite (update_other_reads _ settings codec _ _ Hsame).
  rewrite (update_aq_reads _ settings codec _ Hsame).
  apply update_other_context_log.
Qed.

Lemma update_context_writer (settings : gmap string obs_data_item) (codec : AVCodec) :
  writer (fun c => (update_other settings codec
                      (update_aq settings codec
                         (update_rate_control settings codec
                            (update_preset settings c)).2) []).1).
Proof.
  apply (writer_compose
           (fun c => update_aq settings codec
                       (update_rate_control settings codec (update_preset settings c)).2)
           (fun c => (update_other settings codec c []).1));
    [|apply update_other_writer].
  apply (writer_compose
           (fun c => (update_rate_control settings codec (update_preset settings c)).2)
           (update_aq settings codec));
    [|apply update_aq_writer].
  apply (writer_compose (update_preset settings)
           (fun c => (update_rate_control settings codec c).2));
    [apply update_preset_writer | apply update_rate_control_writer].
Qed.

(** What [update] writes to the codec context is fixed by the settings and
    the codec: there is one set of writes, options with their values and
    fields with theirs, that the call performs on whatever context and log
    it is given. *)
Theorem update_writes (settings : gmap string obs_data_item) (codec : AVCodec) :
  exists w : writes,
    forall (context : AVCodecContext) (log : list string),
      context_after (update settings codec context log) = write w context.
Proof.
  destruct (update_context_writer settings codec) as [w Hw].
  exists w. intros context log. rewrite update_context. apply Hw.
Qed.

(** [update] called again with the settings, the context and the log that
    the first call left: the context and the settings come out as the first
    call left them. *)
Theorem update_idempotent (settings : gmap string obs_data_item) (codec : AVCodec)
    (context : AVCodecContext) (log : list string) :
  let first := update settings codec context log in
  let second :=
    update (settings_after first) codec (context_after first) (log_after first) in
  context_after second = context_after first /\
  settings_after second = settings_after first.
Proof.
  cbv zeta.
  assert (same_but_bitrate (settings_after (update settings codec context log))
            settings) as Hsame.
  { rewrite update_blocks. cbn [settings_after].
    apply update_rate_control_same_but_bitrate. }
  split.
  - destruct (update_context_writer settings codec) as [w Hw].
    rewrite update_blocks at 1. cbn [context_after].
    set (s1 := settings_after (update settings codec context log)) in *.
    set (c1 := context_after (update settings codec context log)).
    assert (same_but_bitrate
              (update_rate_control s1 codec (update_preset s1 c1)).1 settings)
      as Hsame2.
    { intros k Hk. rewrite <- (Hsame k Hk).
      rewrite update_rate_control_settings. apply same_but_bitrate_when, Hk. }
    rewrite (update_other_reads _ settings codec _ _ Hsame2).
    rewrite (update_aq_reads _ settings codec _ Hsame2).
    rewrite (update_rate_control_reads s1 settings codec _ Hsame).
    rewrite (update_preset_reads s1 settings _ Hsame).
    rewrite update_other_context_log, Hw.
    subst c1. rewrite update_context, Hw.
    apply write_idempotent.
  - rewrite (update_blocks _ codec). cbn [settings_after].
    rewrite update_rate_control_settings.
    rewrite !(same_but_bitrate_get_int _ settings _ Hsame) by key_neq.
    rewrite update_blocks. cbn [settings_after].
    rewrite update_rate_control_settings.
    destruct (have_bitrate _); [|reflexivity].
    rewrite !when_true. unfold obs_data_set_int.
    apply insert_insert_eq.
Qed.

(** [update] leaves alone every private option that is not one of its
    own, among them ["surfaces"] and ["async_depth"], and the [delay]
    field. *)
Theorem update_frame (settings : gmap string obs_data_item) (codec : AVCodec)
    (context : AVCodecContext) (log : list string) :
  (forall k : string,
     k ∉ update_options ->
     priv_data (context_after (update settings codec context log)) !! k
     = priv_data context !! k) /\
  ("surfaces" ∉ update_options) /\
  ("async_depth" ∉ update_options) /\
  delay (context_after (update settings codec context log)) = delay context.
Proof.
  split; [|split; [not_listed | split; [not_listed|]]].
  - intros k Hk. unfold update_options in Hk.
    rewrite not_elem_of_cons, !not_elem_of_app in Hk.
    destruct Hk as (Hp & Hrc & Haq & Hother).
    rewrite update_context.
    rewrite update_other_frame by exact Hother.
    rewrite update_aq_frame by exact Haq.
    rewrite update_rate_control_frame by exact Hrc.
    apply update_preset_frame, Hp.
  - rewrite update_context.
    rewrite update_other_fields, update_aq_fields.
    cbn [delay set_max_b_frames set_priv_data].
    transitivity (delay (update_preset settings context));
      [|rewrite update_preset_fields; reflexivity].
    generalize (update_preset settings context) as c. intros c.
    unfold update_rate_control.
    destruct (static_cast_ratecontrolmode _) as [[]|]; cbv zeta;
      cbn [update_switch have_bitrate have_bitrate_max have_quality have_qp
           have_qp_init set_have_bitrate set_have_bitrate_max set_have_quality
           set_have_qp set_have_qp_init have_none orb andb fst snd];
      repeat skip_field delay; case_match; reflexivity.
Qed.

End update_whole.

(** ** The single options of [update] *)

Section update_options.

Context `{nvenc_headers}.
Variables (settings : gmap string obs_data_item) (codec : AVCodec).
Variables (context : AVCodecContext) (log : list string).

Let rc := static_cast_ratecontrolmode (obs_data_get_int settings ST_RATECONTROL_MODE).
Let after_rc := update_rate_control settings codec context.
Let after := context_after (update settings codec context log).

Lemma update_rate_control_lookahead :
  priv_data after_rc.2 !! "rc-lookahead" =
    Some (AVInt (static_cast_int (obs_data_get_int settings ST_RATECONTROL_LOOKAHEAD))).
Proof.
  unfold after_rc. open_rate_control rc.
  all: repeat skip_write; apply lookup_insert_eq.
Qed.

Lemma update_rate_control_2pass :
  let tp := static_cast_int (obs_data_get_int settings ST_RATECONTROL_TWOPASS) in
  priv_data after_rc.2 !! "2pass" =
    if 0 <=? tp then Some (AVInt (if tp =? 0 then 0 else 1))
    else priv_data context !! "2pass".
Proof.
  unfold after_rc. open_rate_control rc.
  all: repeat skip_write; split_write; repeat skip_write.
  all: rewrite ?lookup_insert_eq; reflexivity.
Qed.

Lemma update_preset_option :
  priv_data (update_preset settings context) !! "preset" =
    Some (AVString (static_cast_preset (obs_data_get_int settings ST_PRESET)
                      ≫= std_map_find preset_to_opt)).
Proof.
  unfold update_preset. cbv zeta.
  destruct (_ ≫= _); cbn; apply lookup_insert_eq.
Qed.

Lemma update_other_b_ref_mode :
  priv_data (update_other settings codec context log).1 !! "b_ref_mode" =
    match
      static_cast_b_ref_mode (obs_data_get_int settings ST_OTHER_BFRAME_REFERENCEMODE)
        ≫= std_map_find b_ref_mode_to_opt
    with
    | Some opt => Some (AVString (Some opt))
    | None => priv_data context !! "b_ref_mode"
    end.
Proof.
  rewrite update_other_context. cbv zeta.
  destruct (_ ≫= _); [cbn; apply lookup_insert_eq|].
  destruct (negb _ && _); repeat skip_write; reflexivity.
Qed.

(** The tri-states of the block [// Other] that go to the encoder as they
    are. *)
Lemma update_other_tristates :
  let zl := obs_data_get_int settings ST_OTHER_ZEROLATENCY in
  let nrp := obs_data_get_int settings ST_OTHER_NONREFERENCE_PFRAMES in
  priv_data (update_other settings codec context log).1 !! "zerolatency" =
    (if is_tristate_default zl then priv_data context !! "zerolatency"
     else Some (AVInt zl)) /\
  priv_data (update_other settings codec context log).1 !! "nonref_p" =
    (if is_tristate_default nrp then priv_data context !! "nonref_p"
     else Some (AVInt nrp)).
Proof.
  rewrite update_other_context. cbv zeta.
  destruct (negb _ && _); split; repeat skip_write; split_write;
    repeat skip_write; rewrite ?lookup_insert_eq; reflexivity.
Qed.

(** The options of the AQ block, under the names each codec gives them. *)
Lemma update_aq_options :
  let saq := obs_data_get_int settings ST_AQ_SPATIAL in
  let taq := obs_data_get_int settings ST_AQ_TEMPORAL in
  let h264 := strcmp_eq (name codec) "h264_nvenc" in
  let tristate (here : bool) (v : Z) (k : string) :=
    if here && negb (is_tristate_default v) then Some (AVInt v)
    else priv_data context !! k in
  let after := update_aq settings codec context in
  priv_data after !! "spatial-aq" = tristate h264 saq "spatial-aq" /\
  priv_data after !! "temporal-aq" = tristate h264 taq "temporal-aq" /\
  priv_data after !! "spatial_aq" = tristate (negb h264) saq "spatial_aq" /\
  priv_data after !! "temporal_aq" = tristate (negb h264) taq "temporal_aq" /\
  priv_data after !! "aq-strength" =
    (if is_tristate_enabled saq then
       Some (AVInt (static_cast_int (obs_data_get_int settings ST_AQ_STRENGTH)))
     else priv_data context !! "aq-strength").
Proof.
  cbv zeta. unfold update_aq. cbv zeta.
  destruct (strcmp_eq (name codec) "h264_nvenc"),
    (is_tristate_default (obs_data_get_int settings ST_AQ_SPATIAL)),
    (is_tristate_default (obs_data_get_int settings ST_AQ_TEMPORAL)),
    (is_tristate_enabled (obs_data_get_int settings ST_AQ_SPATIAL));
    cbn [andb negb]; rewrite ?when_true, ?when_false;
    repeat split; repeat skip_write; rewrite ?lookup_insert_eq; reflexivity.
Qed.

End update_options.

Section update_more.

Context `{nvenc_headers}.
Variables (settings : gmap string obs_data_item) (codec : AVCodec).
Variables (context : AVCodecContext) (log : list string).

Let rc := static_cast_ratecontrolmode (obs_data_get_int settings ST_RATECONTROL_MODE).
Let h := modified_ratecontrol_switch rc.
Let after := context_after (update settings codec context log).

(** The three options that hold the token of an enumerator. A preset value
    that is no enumerator resets ["preset"] to the null string; a
    rate-control mode or a B-frame reference mode that is no enumerator
    leaves ["rc"] or ["b_ref_mode"] as it was. *)
Theorem update_tokens :
  priv_data after !! "preset" =
    Some (AVString (static_cast_preset (obs_data_get_int settings ST_PRESET)
                      ≫= std_map_find preset_to_opt)) /\
  priv_data after !! "rc" =
    match rc ≫= std_map_find ratecontrolmode_to_opt with
    | Some opt => Some (AVString (Some opt))
    | None => priv_data context !! "rc"
    end /\
  priv_data after !! "b_ref_mode" =
    match
      static_cast_b_ref_mode (obs_data_get_int settings ST_OTHER_BFRAME_REFERENCEMODE)
        ≫= std_map_find b_ref_mode_to_opt
    with
    | Some opt => Some (AVString (Some opt))
    | None => priv_data context !! "b_ref_mode"
    end.
Proof.
  unfold after. rewrite update_context. repeat split.
  - rewrite update_other_frame, update_aq_frame, update_rate_control_frame
      by not_listed.
    apply update_preset_option.
  - rewrite update_other_frame, update_aq_frame by not_listed.
    rewrite update_rate_control_rc.
    rewrite update_preset_frame by discriminate. reflexivity.
  - rewrite update_other_b_ref_mode.
    rewrite update_aq_frame, update_rate_control_frame by not_listed.
    rewrite update_preset_frame by discriminate. reflexivity.
Qed.

(** The lookahead always goes to ["rc-lookahead"], as the [int] it is read
    as. Two-pass is written only for a value of at least 0, and then as 0
    or 1: any positive value counts as Enabled, any negative one as
    Default. *)
Theorem update_lookahead_twopass :
  let la := static_cast_int (obs_data_get_int settings ST_RATECONTROL_LOOKAHEAD) in
  let tp := static_cast_int (obs_data_get_int settings ST_RATECONTROL_TWOPASS) in
  priv_data after !! "rc-lookahead" = Some (AVInt la) /\
  priv_data after !! "2pass" =
    (if 0 <=? tp then Some (AVInt (if tp =? 0 then 0 else 1))
     else priv_data context !! "2pass").
Proof.
  cbv zeta. unfold after. rewrite update_context.
  rewrite !update_other_frame, !update_aq_frame by not_listed.
  rewrite update_rate_control_lookahead, update_rate_control_2pass. cbv zeta.
  rewrite update_preset_frame by discriminate. split; reflexivity.
Qed.

(** The adaptive-quantization options carry the name of the codec family:
    for "h264_nvenc" the tri-states go to ["spatial-aq"] and
    ["temporal-aq"] and the underscore names are never written; for every
    other codec it is the reverse. Each is written with the value of the
    setting unless that is Default (-1), and the strength is written exactly
    when spatial AQ is Enabled (1). *)
Theorem update_aq_names :
  let saq := obs_data_get_int settings ST_AQ_SPATIAL in
  let taq := obs_data_get_int settings ST_AQ_TEMPORAL in
  let h264 := strcmp_eq (name codec) "h264_nvenc" in
  let tristate (here : bool) (v : Z) (k : string) :=
    if here && negb (is_tristate_default v) then Some (AVInt v)
    else priv_data context !! k in
  priv_data after !! "spatial-aq" = tristate h264 saq "spatial-aq" /\
  priv_data after !! "temporal-aq" = tristate h264 taq "temporal-aq" /\
  priv_data after !! "spatial_aq" = tristate (negb h264) saq "spatial_aq" /\
  priv_data after !! "temporal_aq" = tristate (negb h264) taq "temporal_aq" /\
  priv_data after !! "aq-strength" =
    (if is_tristate_enabled saq then
       Some (AVInt (static_cast_int (obs_data_get_int settings ST_AQ_STRENGTH)))
     else priv_data context !! "aq-strength").
Proof.
  cbv zeta. unfold after. rewrite update_context.
  rewrite !update_other_frame by not_listed.
  destruct (update_aq_options settings codec
              (update_rate_control settings codec (update_preset settings context)).2)
    as (-> & -> & -> & -> & ->).
  rewrite !update_rate_control_frame by not_listed.
  rewrite !update_preset_frame by discriminate.
  repeat split; reflexivity.
Qed.

(** Zero latency and non-reference P-frames go to the encoder with the
    value of the setting, whatever it is, unless it is Default (-1). *)
Theorem update_zerolatency_nonref_p :
  let zl := obs_data_get_int settings ST_OTHER_ZEROLATENCY in
  let nrp := obs_data_get_int settings ST_OTHER_NONREFERENCE_PFRAMES in
  priv_data after !! "zerolatency" =
    (if is_tristate_default zl then priv_data context !! "zerolatency"
     else Some (AVInt zl)) /\
  priv_data after !! "nonref_p" =
    (if is_tristate_default nrp then priv_data context !! "nonref_p"
     else Some (AVInt nrp)).
Proof.
  cbv zeta. unfold after. rewrite update_context.
  destruct (update_other_tristates settings codec
              (update_aq settings codec
                 (update_rate_control settings codec
                    (update_preset settings context)).2) [])
    as (-> & ->).
  rewrite !update_aq_frame, !update_rate_control_frame by not_listed.
  rewrite !update_preset_frame by discriminate.
  split; reflexivity.
Qed.

(** In a mode with a bitrate the rates reach the context in bits: the
    setting times 1000, converted to [int]. The field holds that product
    exactly when the product fits an [int]; the properties admit values up
    to the largest [int], whose product does not. *)
Theorem update_bit_rates :
  have_bitrate h = true ->
  let target := obs_data_get_int settings ST_RATECONTROL_BITRATE_TARGET in
  let maximum := obs_data_get_int settings ST_RATECONTROL_BITRATE_MAXIMUM in
  let buffer := obs_data_get_int settings S_RATECONTROL_BUFFERSIZE in
  (bit_rate after = target * 1000 <-> int_range (target * 1000)) /\
  (rc_buffer_size after = buffer * 1000 <-> int_range (buffer * 1000)) /\
  (have_bitrate_max h = true ->
   (rc_max_rate after = maximum * 1000 <-> int_range (maximum * 1000))).
Proof.
  intros Hb. cbv zeta. unfold after.
  destruct (update_keeps_fields settings codec context log) as (-> & -> & -> & _).
  destruct (update_rate_control_fields settings codec (update_preset settings context))
    as (-> & -> & -> & _).
  fold rc. fold h. rewrite Hb. cbn [orb].
  assert (forall z, static_cast_int (z *ll 1000) = z * 1000 <-> int_range (z * 1000))
    as Hexact.
  { intros z. split.
    - intros <-. apply static_cast_int_range.
    - intros Hz. unfold mul64. rewrite wrap64_id by (apply int_range_int64, Hz).
      apply static_cast_int_id, Hz. }
  split; [apply Hexact|]. split; [apply Hexact|].
  intros Hm. rewrite Hm. apply Hexact.
Qed.

(** [update] followed by [override_update], on a context whose surface
    count is not set, for a lookahead and a B-frame count within the range
    of their sliders (0 to 32 and 0 to 4): the surface count is
    (b_frames + 1) * 4 without lookahead and the larger of that and
    lookahead + b_frames + 5 with it, between 4 and 41, and the delay is the
    async depth brought between 3 and the surface count minus one. *)
Theorem update_then_override_update :
  let la := obs_data_get_int settings ST_RATECONTROL_LOOKAHEAD in
  let b_frames := obs_data_get_int settings ST_OTHER_BFRAMES in
  let async_depth := av_opt_get_int context "async_depth" 0 in
  0 <= la <= 32 -> 0 <= b_frames <= 4 ->
  av_opt_get_int context "surfaces" 0 = 0 -> int_range async_depth ->
  let final := override_update after in
  let surfaces :=
    if 0 <? la then Z.max ((b_frames + 1) * 4) (la + b_frames + 5)
    else (b_frames + 1) * 4 in
  priv_data final !! "surfaces" = Some (AVInt surfaces) /\
  4 <= surfaces <= 41 /\
  delay final = Z.min (Z.max async_depth 3) (surfaces - 1) /\
  3 <= delay final <= 40.
Proof.
  cbv zeta. intros Hla Hb Hs Ha.
  assert (av_opt_get_int after "rc-lookahead" 0
          = obs_data_get_int settings ST_RATECONTROL_LOOKAHEAD) as Hla'.
  { unfold av_opt_get_int at 1, after. rewrite update_context.
    rewrite !update_other_frame, !update_aq_frame by not_listed.
    rewrite update_rate_control_lookahead.
    apply static_cast_int_id. unfold int_range, INT_MIN, INT_MAX. lia. }
  assert (av_opt_get_int after "surfaces" 0 = 0) as Hs'.
  { transitivity (av_opt_get_int context "surfaces" 0); [|exact Hs].
    unfold av_opt_get_int, after. rewrite update_context.
    rewrite update_other_frame, update_aq_frame, update_rate_control_frame
      by not_listed.
    rewrite update_preset_frame by discriminate. reflexivity. }
  assert (av_opt_get_int after "async_depth" 0
          = av_opt_get_int context "async_depth" 0) as Ha'.
  { unfold av_opt_get_int, after. rewrite update_context.
    rewrite update_other_frame, update_aq_frame, update_rate_control_frame
      by not_listed.
    rewrite update_preset_frame by discriminate. reflexivity. }
  assert (max_b_frames after = obs_data_get_int settings ST_OTHER_BFRAMES) as Hb'.
  { unfold after. rewrite update_context, update_other_max_b_frames.
    apply static_cast_int_id. unfold int_range, INT_MIN, INT_MAX. lia. }
  unfold override_update. rewrite Hla', Hs', Ha', Hb'. cbn.
  rewrite lookup_insert_eq.
  set (la := obs_data_get_int settings ST_RATECONTROL_LOOKAHEAD) in *.
  set (b := obs_data_get_int settings ST_OTHER_BFRAMES) in *.
  set (a := av_opt_get_int context "async_depth" 0) in *.
  clearbody la b a. clear Hla' Hs' Ha' Hb'.
  destruct (Z.ltb_spec 0 la), (Z.ltb_spec 0 b); exact_arith;
    repeat split; try (do 2 f_equal); lia.
Qed.

End update_more.

(** The default target of 6000 kbit/s reaches the context as 6000000
    bits/s; a target of 2147484 kbit/s, which the property admits, does not
    reach it as 2147484000. *)
Lemma update_bit_rates_examples :
  bit_rate (context_after (update default_settings h264_nvenc avcodec_alloc_context3 []))
  = 6000 * 1000 /\
  bit_rate
    (context_after
       (update (obs_data_set_int ST_RATECONTROL_BITRATE_TARGET 2147484 default_settings)
          h264_nvenc avcodec_alloc_context3 []))
  <> 2147484 * 1000.
Proof.
  split.
  - refine (proj2 (proj1 (update_bit_rates default_settings h264_nvenc
                            avcodec_alloc_context3 [] _)) _).
    + vm_compute. reflexivity.
    + closed_range.
  - intros Heq.
    refine (_ (proj1 (proj1 (update_bit_rates
                               (obs_data_set_int ST_RATECONTROL_BITRATE_TARGET 2147484
                                  default_settings)
                               h264_nvenc avcodec_alloc_context3 [] _)) Heq)).
    + intros [_ Hle]. vm_compute in Hle. apply Hle. reflexivity.
    + vm_compute. reflexivity.
Defined.

(** The default settings, with no lookahead and two B-frames, on a fresh
    context: 12 surfaces and a delay of 3. *)
Lemma update_then_override_update_default :
  let final :=
    override_update
      (context_after (update default_settings h264_nvenc avcodec_alloc_context3 [])) in
  priv_data final !! "surfaces" = Some (AVInt 12) /\ delay final = 3.
Proof.
  cbv zeta.
  destruct (update_then_override_update default_settings h264_nvenc
              avcodec_alloc_context3 [])
    as (Hsurfaces & _ & Hdelay & _).
  - vm_compute. split; discriminate.
  - vm_compute. split; discriminate.
  - reflexivity.
  - closed_range.
  - split; [exact Hsurfaces | exact Hdelay].
Defined.

(** ** Defaults *)

(** A value the user sets is the one a reader finds, whatever the default. *)
Lemma obs_data_items_set_int (name : string) (val : Z)
    (user defaults : gmap string obs_data_item) :
  obs_data_items (obs_data_set_int name val user) defaults
  = obs_data_set_int name val (obs_data_items user defaults).
Proof. unfold obs_data_items, obs_data_set_int. symmetry. apply insert_union_l. Qed.

(** What [get_defaults] does to the defaults of a settings object: one set
    of defaults laid over the ones it had. *)
Lemma get_defaults_union `{nvenc_headers} (settings : gmap string obs_data_item) :
  get_defaults settings = get_defaults ∅ ∪ settings.
Proof.
  unfold get_defaults, obs_data_set_default_int. cbv zeta.
  rewrite <- !insert_union_l. rewrite (left_id_L ∅ (∪)). reflexivity.
Qed.

(** [get_defaults] run again changes nothing. *)
Theorem get_defaults_idempotent `{nvenc_headers}
    (settings : gmap string obs_data_item) :
  get_defaults (get_defaults settings) = get_defaults settings.
Proof.
  rewrite (get_defaults_union (get_defaults settings)).
  rewrite (get_defaults_union settings).
  rewrite (assoc_L (∪)), (idemp_L (∪)). reflexivity.
Qed.

(** ** The callbacks of the property tree *)

Lemma set_visible_set_enabled (n n' : string) (b b' : bool)
    (props : gmap string obs_property) :
  obs_property_set_visible n b (obs_property_set_enabled n' b' props)
  = obs_property_set_enabled n' b' (obs_property_set_visible n b props).
Proof.
  unfold obs_property_set_visible, obs_property_set_enabled.
  apply map_eq. intros i. rewrite !lookup_alter.
  repeat case_decide; subst; rewrite ?lookup_alter_eq, ?lookup_alter_ne by assumption;
    try congruence; destruct (props !! _); reflexivity.
Qed.

Lemma enabled_set_visible (n k : string) (b : bool) (props : gmap string obs_property) :
  enabled <$> obs_property_set_visible n b props !! k = enabled <$> props !! k.
Proof.
  unfold obs_property_set_visible. rewrite lookup_alter.
  case_decide; [subst|reflexivity]. destruct (props !! k); reflexivity.
Qed.

Lemma visible_set_enabled (n k : string) (b : bool) (props : gmap string obs_property) :
  visible <$> obs_property_set_enabled n b props !! k = visible <$> props !! k.
Proof.
  unfold obs_property_set_enabled. rewrite lookup_alter.
  case_decide; [subst|reflexivity]. destruct (props !! k); reflexivity.
Qed.

Section callbacks.

Context `{nvenc_headers}.
Variables (props : gmap string obs_property) (settings : gmap string obs_data_item).

(** The callback of the rate-control mode changes visibility only, the
    callback of the quality toggle changes enablement only and that of
    spatial AQ visibility only: no callback undoes what another has set, and
    the first two give the same tree in either order. *)
Theorem callbacks_independent :
  (forall k : string,
     enabled <$> (modified_ratecontrol props settings).1 !! k = enabled <$> props !! k) /\
  (forall k : string,
     visible <$> (modified_quality props settings).1 !! k = visible <$> props !! k) /\
  (forall k : string,
     enabled <$> (modified_aq props settings).1 !! k = enabled <$> props !! k) /\
  (modified_quality (modified_ratecontrol props settings).1 settings).1
  = (modified_ratecontrol (modified_quality props settings).1 settings).1.
Proof.
  repeat split.
  - intros k. unfold modified_ratecontrol. cbv zeta. cbn [fst].
    rewrite !enabled_set_visible. reflexivity.
  - intros k. unfold modified_quality. cbv zeta. cbn [fst].
    rewrite !visible_set_enabled. reflexivity.
  - intros k. unfold modified_aq. cbv zeta. cbn [fst].
    rewrite !enabled_set_visible. reflexivity.
  - unfold modified_quality, modified_ratecontrol. cbv zeta. cbn [fst].
    rewrite !set_visible_set_enabled. reflexivity.
Qed.

(** Once the encoder runs, [get_runtime_properties] leaves enabled, of the
    properties it names, the bitrate group with target, maximum and buffer
    size, and disables all the others; it changes no visibility. The
    buffer-size key is taken to be none of the other names. *)
Theorem get_runtime_properties_enabled :
  S_RATECONTROL_BUFFERSIZE ∉ runtime_disabled ->
  Forall
    (fun k =>
       get_runtime_properties props !! k
       = (fun p => {| visible := visible p; enabled := false |}) <$> props !! k)
    runtime_disabled /\
  Forall
    (fun k =>
       get_runtime_properties props !! k
       = (fun p => {| visible := visible p; enabled := true |}) <$> props !! k)
    [ ST_RATECONTROL_BITRATE; ST_RATECONTROL_BITRATE_TARGET;
      ST_RATECONTROL_BITRATE_MAXIMUM; S_RATECONTROL_BUFFERSIZE ] /\
  (forall k : string,
     visible <$> get_runtime_properties props !! k = visible <$> props !! k).
Proof.
  intros Hbuf.
  pose proof S_RATECONTROL_BUFFERSIZE_fresh as Hfresh.
  unfold rate_control_properties in Hfresh. rewrite !not_elem_of_cons in Hfresh.
  destruct Hfresh as (_ & ? & ? & ? & _).
  unfold runtime_disabled in Hbuf. rewrite !not_elem_of_cons in Hbuf.
  destruct Hbuf as (? & ? & ? & ? & ? & ? & ? & ? & ? & ? & ? & ? & ? & ? & ? & ?
                    & ? & ? & ? & ? & ? & ? & ? & ? & ? & ? & ? & ? & _).
  split; [|split].
  - unfold runtime_disabled, get_runtime_properties. cbv zeta.
    unfold obs_property_set_enabled.
    repeat apply Forall_cons_2; [..|apply Forall_nil_2].
    all: repeat (rewrite lookup_alter_ne by key_neq).
    all: rewrite lookup_alter_eq.
    all: repeat (rewrite lookup_alter_ne by key_neq).
    all: reflexivity.
  - unfold get_runtime_properties. cbv zeta. unfold obs_property_set_enabled.
    repeat apply Forall_cons_2; [..|apply Forall_nil_2].
    all: repeat (rewrite lookup_alter_ne by key_neq).
    all: rewrite lookup_alter_eq.
    all: repeat (rewrite lookup_alter_ne by key_neq).
    all: reflexivity.
  - intros k. unfold get_runtime_properties. cbv zeta.
    rewrite !visible_set_enabled. reflexivity.
Qed.

End callbacks.

(** Membership of a closed name in a closed list of names. *)
Ltac listed := apply (bool_decide_unpack _); vm_compute; exact I.

(** On the tree of the rate-control properties: at runtime the buffer size
    stays enabled and the QP of I-frames is disabled. *)
Lemma get_runtime_properties_tree :
  get_runtime_properties rate_control_tree !! S_RATECONTROL_BUFFERSIZE
  = Some {| visible := true; enabled := true |} /\
  get_runtime_properties rate_control_tree !! ST_RATECONTROL_QP_I
  = Some {| visible := true; enabled := false |}.
Proof.
  assert (S_RATECONTROL_BUFFERSIZE ∉ runtime_disabled) as Hbuf by not_listed.
  destruct (get_runtime_properties_enabled rate_control_tree Hbuf)
    as (Hoff & Hon & _).
  rewrite Forall_forall in Hoff. rewrite Forall_forall in Hon. split.
  - rewrite (Hon S_RATECONTROL_BUFFERSIZE) by listed. vm_compute. reflexivity.
  - rewrite (Hoff ST_RATECONTROL_QP_I) by listed. vm_compute. reflexivity.
Defined.

Section aq_strength.

Context `{nvenc_headers}.
Variables (props : gmap string obs_property) (settings : gmap string obs_data_item).
Variables (codec : AVCodec) (context : AVCodecContext) (log : list string).

(** The AQ strength is shown exactly when it is applied: [modified_aq]
    makes the strength property visible, and [update] writes the
    ["aq-strength"] option, under the same test, spatial AQ being Enabled
    (1). [modified_aq] changes no other property. *)
Theorem aq_strength_shown_and_applied :
  let spatial_aq := obs_data_get_int settings ST_AQ_SPATIAL =? 1 in
  (modified_aq props settings).1 !! ST_AQ_STRENGTH
  = (fun p => {| visible := spatial_aq; enabled := enabled p |})
      <$> props !! ST_AQ_STRENGTH /\
  (forall k : string,
     k <> ST_AQ_STRENGTH -> (modified_aq props settings).1 !! k = props !! k) /\
  priv_data (context_after (update settings codec context log)) !! "aq-strength"
  = (if spatial_aq then
       Some (AVInt (static_cast_int (obs_data_get_int settings ST_AQ_STRENGTH)))
     else priv_data context !! "aq-strength").
Proof.
  cbv zeta. split; [|split].
  - unfold modified_aq, obs_property_set_visible. cbv zeta. cbn [fst].
    apply lookup_alter_eq.
  - intros k Hk. unfold modified_aq, obs_property_set_visible. cbv zeta. cbn [fst].
    apply lookup_alter_ne. congruence.
  - rewrite update_context.
    rewrite update_other_frame by not_listed.
    destruct (update_aq_options settings codec
                (update_rate_control settings codec (update_preset settings context)).2)
      as (_ & _ & _ & _ & ->).
    rewrite update_rate_control_frame by not_listed.
    rewrite update_preset_frame by discriminate. reflexivity.
Qed.

End aq_strength.

(** ** The tables and the flags *)

(** Every enumerator has an option token in its table, and no two
    enumerators of a table share a token: the token written to ["preset"],
    ["rc"] or ["b_ref_mode"] tells which enumerator was selected. *)
Theorem option_tokens_distinct :
  (forall p : preset, is_Some (std_map_find preset_to_opt p)) /\
  (forall p q : preset,
     std_map_find preset_to_opt p = std_map_find preset_to_opt q -> p = q) /\
  (forall m : ratecontrolmode, is_Some (std_map_find ratecontrolmode_to_opt m)) /\
  (forall m n : ratecontrolmode,
     std_map_find ratecontrolmode_to_opt m = std_map_find ratecontrolmode_to_opt n ->
     m = n) /\
  (forall r : b_ref_mode, is_Some (std_map_find b_ref_mode_to_opt r)) /\
  (forall r t : b_ref_mode,
     std_map_find b_ref_mode_to_opt r = std_map_find b_ref_mode_to_opt t -> r = t).
Proof.
  repeat split.
  - intros []; vm_compute; eauto.
  - intros [] []; vm_compute; intros Heq; first [reflexivity | discriminate Heq].
  - intros []; vm_compute; eauto.
  - intros [] []; vm_compute; intros Heq; first [reflexivity | discriminate Heq].
  - intros []; vm_compute; eauto.
  - intros [] []; vm_compute; intros Heq; first [reflexivity | discriminate Heq].
Qed.

(** [update] and [modified_ratecontrol] compute the same flags for every
    mode value. No mode has both the QP fields and the initial-QP fields, so
    [update] writes the init_qp options at most once; bitrate maximum,
    quality and initial QP go together, and only with the bitrate; a mode
    value that is no enumerator has no flag at all. *)
Theorem rate_control_flags (rc : option ratecontrolmode) (context : AVCodecContext) :
  let h := modified_ratecontrol_switch rc in
  (update_switch rc context).1 = h /\
  have_qp h && have_qp_init h = false /\
  have_quality h = have_bitrate_max h /\
  have_qp_init h = have_bitrate_max h /\
  have_bitrate_max h && negb (have_bitrate h) = false /\
  have_bitrate h || have_qp h = bool_decide (rc <> None).
Proof. destruct rc as [[]|]; repeat split. Qed.
